(** * maasserver: change-notification triggers and support views

    A shallow embedding of [src/maasserver/triggers.py] and
    [src/maasserver/dbviews.py].  Both modules are Python code that
    installs objects in a PostgreSQL catalogue: PL/pgSQL trigger
    procedures with the triggers that call them, and SQL views.

    The Python functions are embedded as functions on an explicit catalogue
    (an error monad threads the catalogue through the calls, the way the
    Python threads the connection).  Each PL/pgSQL procedure text is embedded
    as a function from the database snapshot and the trigger's row images to
    the list of notifications it sends with [pg_notify]. *)

From Stdlib Require Import List String Ascii ZArith Bool Lia Permutation.
From Stdlib Require Import DecimalString.
Import ListNotations.
Local Open Scope string_scope.

(** ** Results of executing SQL *)

Inductive result (A : Type) : Type :=
| Ok (a : A)
| SqlError (msg : string).
Arguments Ok {A} a.
Arguments SqlError {A} msg.

Definition bind {A B : Type} (c : result A) (k : A -> result B) : result B :=
  match c with
  | Ok a => k a
  | SqlError msg => SqlError msg
  end.

Notation "x <- c ;; k" := (bind c (fun x => k))
  (at level 61, c at next level, right associativity).

(** ** Strings: the Python and PostgreSQL string operations the code uses *)

Definition upper_ascii (c : ascii) : ascii :=
  let n := nat_of_ascii c in
  if ((97 <=? n) && (n <=? 122))%nat then ascii_of_nat (n - 32) else c.

Definition lower_ascii (c : ascii) : ascii :=
  let n := nat_of_ascii c in
  if ((65 <=? n) && (n <=? 90))%nat then ascii_of_nat (n + 32) else c.

Fixpoint map_string (f : ascii -> ascii) (s : string) : string :=
  match s with
  | EmptyString => EmptyString
  | String c s' => String (f c) (map_string f s')
  end.

(** Python [str.upper()]. *)
Definition upper (s : string) : string := map_string upper_ascii s.

Definition lower (s : string) : string := map_string lower_ascii s.

(** White space between the words of an SQL statement: space, tab, newline,
    form feed, carriage return. *)
Definition is_space (c : ascii) : bool :=
  let n := nat_of_ascii c in
  ((n =? 32) || (n =? 9) || (n =? 10) || (n =? 12) || (n =? 13))%nat.

(** The words of a piece of SQL text; [word] is the word being read. *)
Fixpoint words_from (word s : string) : list string :=
  match s with
  | EmptyString => if String.eqb word "" then [] else [word]
  | String c s' =>
      if is_space c
      then if String.eqb word "" then words_from "" s'
           else word :: words_from "" s'
      else words_from (word ++ String c "") s'
  end.

Definition words (s : string) : list string := words_from "" s.

(** An identifier written without quotes, as the module writes every name:
    PostgreSQL folds it to lower case and keeps its first 63 bytes. *)
Definition identifier (s : string) : string := substring 0 63 (lower s).

(** Python [str(value)] for the booleans passed in [params]. *)
Definition py_str (b : bool) : string := if b then "True" else "False".

Definition mem_string (s : string) (l : list string) : bool :=
  existsb (String.eqb s) l.

(** Decimal rendering of an integer, as [CAST(n AS text)] gives it. *)
Definition text_of_int (z : Z) : string :=
  NilZero.string_of_int (Z.to_int z).

(** ** SQL values, rows and three-valued logic *)

Inductive value : Type :=
| VNull
| VInt (z : Z)
| VText (s : string)
| VBool (b : bool).

(** A row maps column names to values; a table is the list of its rows; a
    database snapshot maps table names to tables. *)
Definition row : Type := list (string * value).
Definition table : Type := list row.
Definition database : Type := list (string * table).

Fixpoint field (c : string) (r : row) : option value :=
  match r with
  | [] => None
  | (k, v) :: r' => if String.eqb k c then Some v else field c r'
  end.

(** Column of a stored row.  Every stored row carries the columns of its
    table; a column that is not listed reads as NULL. *)
Definition col (r : row) (c : string) : value :=
  match field c r with
  | Some v => v
  | None => VNull
  end.

Fixpoint rows_of (db : database) (t : string) : table :=
  match db with
  | [] => []
  | (name, rows) :: db' => if String.eqb name t then rows else rows_of db' t
  end.

(** SQL truth values: [None] is unknown (NULL). *)
Definition tv : Type := option bool.

(** [a = b].  A comparison with NULL is unknown; so is a comparison of
    values of different types, which a typed schema excludes. *)
Definition sql_eq (a b : value) : tv :=
  match a, b with
  | VInt x, VInt y => Some (Z.eqb x y)
  | VText x, VText y => Some (String.eqb x y)
  | VBool x, VBool y => Some (Bool.eqb x y)
  | _, _ => None
  end.

(** [a != b]. *)
Definition sql_neq (a b : value) : tv := option_map negb (sql_eq a b).

Definition sql_and (p q : tv) : tv :=
  match p, q with
  | Some false, _ | _, Some false => Some false
  | Some true, Some true => Some true
  | _, _ => None
  end.

Definition sql_or (p q : tv) : tv :=
  match p, q with
  | Some true, _ | _, Some true => Some true
  | Some false, Some false => Some false
  | _, _ => None
  end.

(** A boolean column used as a condition. *)
Definition as_cond (v : value) : tv :=
  match v with
  | VBool b => Some b
  | _ => None
  end.

(** A WHERE clause keeps a row, and an IF takes its THEN branch, only when
    the condition is true: false and unknown both fail. *)
Definition holds (c : tv) : bool :=
  match c with
  | Some true => true
  | _ => false
  end.

(** [CAST(v AS text)]; [None] is NULL. *)
Definition cast_text (v : value) : option string :=
  match v with
  | VNull => None
  | VInt z => Some (text_of_int z)
  | VText s => Some s
  | VBool b => Some (if b then "true" else "false")
  end.

(** PostgreSQL's boolean input: the spellings a quoted literal compared
    with a boolean column may have (case-insensitive). *)
Definition bool_in (s : string) : option bool :=
  let l := lower s in
  if mem_string l ["t"; "tr"; "tru"; "true"; "y"; "ye"; "yes"; "on"; "1"]
  then Some true
  else if mem_string l
            ["f"; "fa"; "fal"; "fals"; "false"; "n"; "no"; "of"; "off"; "0"]
  then Some false
  else None.

(** [v = 'lit']: the quoted literal takes the type of the column. *)
Definition sql_eq_literal (v : value) (lit : string) : tv :=
  match v with
  | VNull => None
  | VInt z => Some (String.eqb (text_of_int z) lit)
  | VText s => Some (String.eqb s lit)
  | VBool b => option_map (Bool.eqb b) (bool_in lit)
  end.

(** ** The PL/pgSQL runtime of a row-level trigger *)

(** A notification: channel and payload. *)
Definition notification : Type := (string * string)%type.

(** The row images of the firing trigger.  [OLD] is unassigned in an INSERT
    trigger and [NEW] in a DELETE trigger. *)
Record tg_data : Type := mk_tg { OLD : option row; NEW : option row }.

Definition image_field (image : option row) (c : string) : result value :=
  match image with
  | None => SqlError "record is not assigned yet"
  | Some r =>
      match field c r with
      | Some v => Ok v
      | None => SqlError "record has no such field"
      end
  end.

(** The expressions the Python code substitutes into the procedure texts:
    ['NEW.<column>'] and ['OLD.<column>']. *)
Definition eval_expr (tg : tg_data) (e : string) : result value :=
  if prefix "NEW." e
  then image_field (NEW tg) (substring 4 (String.length e - 4) e)
  else if prefix "OLD." e
  then image_field (OLD tg) (substring 4 (String.length e - 4) e)
  else SqlError "unsupported expression".

(** [pg_notify(channel, payload)] is not strict: a NULL payload is sent as
    the empty string. *)
Definition text_or_empty (payload : option string) : string :=
  match payload with
  | Some p => p
  | None => ""
  end.

Definition pg_notify (channel : string) (payload : option string)
  : result (list notification) :=
  Ok [(channel, text_or_empty payload)].

(** Two statements in sequence. *)
Definition and_then (a b : result (list notification))
  : result (list notification) :=
  x <- a ;; y <- b ;; Ok (x ++ y)%list.

(** [SELECT ... INTO node]: the first row of the result; when the query
    returns no row the record is set to NULLs (there is no STRICT). *)
Definition select_into (rows : list row) : option row := hd_error rows.

(** [node.<column>] of a RECORD variable. *)
Definition rfield (node : option row) (c : string) : value :=
  match node with
  | Some r => col r c
  | None => VNull
  end.

(** One row of a join that passes the WHERE clause. *)
Definition where_ (c : tv) (selected : row) : list row :=
  if holds c then [selected] else [].

(** [FOR node IN (query) LOOP body END LOOP]. *)
Fixpoint for_loop (rows : list row) (body : row -> result (list notification))
  : result (list notification) :=
  match rows with
  | [] => Ok []
  | r :: rows' => and_then (body r) (for_loop rows' body)
  end.

(** A trigger procedure: its name and its body. *)
Record procedure : Type := mk_procedure {
  proname : string;
  prosrc : database -> tg_data -> result (list notification)
}.

Declare Scope sql_scope.
Delimit Scope sql_scope with sql.
Notation "a === b" := (sql_eq a b) (at level 70, no associativity) : sql_scope.
Notation "a =/= b" := (sql_neq a b) (at level 70, no associativity) : sql_scope.
Notation "p 'AND' q" := (sql_and p q) (at level 74, left associativity) : sql_scope.
Notation "p 'OR' q" := (sql_or p q) (at level 76, left associativity) : sql_scope.

(** ** triggers.py: the procedure texts *)

(** The query that recurs in the procedure texts:
[[
      SELECT system_id, installable INTO node
      FROM maasserver_node
      WHERE id = <id>;
]] *)
Definition select_node_by_id (db : database) (id : value) : option row :=
  select_into
    (flat_map (fun maasserver_node =>
       where_ (col maasserver_node "id" === id)%sql maasserver_node)
     (rows_of db "maasserver_node")).

(** The statement that recurs in the procedure texts:
[[
      IF node.installable THEN
        PERFORM pg_notify('node_update',CAST(node.system_id AS text));
      ELSE
        PERFORM pg_notify('device_update',CAST(node.system_id AS text));
      END IF;
]] *)
Definition notify_node_or_device (node : option row)
  : result (list notification) :=
  if holds (as_cond (rfield node "installable"))
  then pg_notify "node_update" (cast_text (rfield node "system_id"))
  else pg_notify "device_update" (cast_text (rfield node "system_id")).

(** Procedure that is called when a tag is added or removed from a
    node/device. *)
Definition NODE_TAG_NOTIFY (proc_name node_id : string) : procedure :=
  mk_procedure proc_name (fun db tg =>
    id <- eval_expr tg node_id ;;
    let node := select_node_by_id db id in
    notify_node_or_device node).

(** Procedure that is called when a tag is updated: one notification for
    every node that carries the tag.  The query of the loop has no ORDER BY,
    so the order of its rows is the executor's: the embedding takes them as
    PostgreSQL returns them for this join, in the order of the Node table,
    and the statements about the loop hold up to the order. *)
Definition TAG_NODES_NOTIFY : procedure :=
  mk_procedure "tag_update_node_device_notify" (fun db tg =>
    new_id <- eval_expr tg "NEW.id" ;;
    for_loop
      (flat_map (fun maasserver_node =>
         flat_map (fun maasserver_node_tags =>
           where_ (col maasserver_node_tags "tag_id" === new_id
                   AND col maasserver_node_tags "node_id"
                       === col maasserver_node "id")%sql
                  maasserver_node)
         (rows_of db "maasserver_node_tags"))
       (rows_of db "maasserver_node"))
      (fun node => notify_node_or_device (Some node))).

(** Procedure that is called when an event is created. *)
Definition EVENT_NODE_NOTIFY : procedure :=
  mk_procedure "event_create_node_device_notify" (fun db tg =>
    id <- eval_expr tg "NEW.node_id" ;;
    let node := select_node_by_id db id in
    notify_node_or_device node).

(** Procedure that is called when a NodeGroupInterface is added, updated or
    deleted from a NodeGroup. *)
Definition NODEGROUP_INTERFACE_NODEGROUP_NOTIFY (proc_name nodegroup_id : string)
  : procedure :=
  mk_procedure proc_name (fun db tg =>
    id <- eval_expr tg nodegroup_id ;;
    pg_notify "nodegroup_update" (cast_text id)).

(** Procedure that is called when a static ip address is linked or unlinked
    to a MAC address. *)
Definition MACSTATICIPADDRESSLINK_NODE_NOTIFY (proc_name mac_id : string)
  : procedure :=
  mk_procedure proc_name (fun db tg =>
    id <- eval_expr tg mac_id ;;
    let node := select_into
      (flat_map (fun maasserver_node =>
         flat_map (fun maasserver_macaddress =>
           where_ (col maasserver_node "id"
                     === col maasserver_macaddress "node_id"
                   AND col maasserver_macaddress "id" === id)%sql
                  maasserver_node)
         (rows_of db "maasserver_macaddress"))
       (rows_of db "maasserver_node")) in
    notify_node_or_device node).

(** Procedure that is called when a dhcplease is added or removed and it
    matches a MAC address. *)
Definition DHCPLEASE_NODE_NOTIFY (proc_name mac : string) : procedure :=
  mk_procedure proc_name (fun db tg =>
    mac_address <- eval_expr tg mac ;;
    let node := select_into
      (flat_map (fun maasserver_node =>
         flat_map (fun maasserver_macaddress =>
           where_ (col maasserver_node "id"
                     === col maasserver_macaddress "node_id"
                   AND col maasserver_macaddress "mac_address"
                       === mac_address)%sql
                  maasserver_node)
         (rows_of db "maasserver_macaddress"))
       (rows_of db "maasserver_node")) in
    notify_node_or_device node).

(** Procedure that is called when a MAC address is updated: notifies the new
    node, and the old node as well when the address moved. *)
Definition MACADDRESS_UPDATE_NODE_NOTIFY : procedure :=
  mk_procedure "nd_macaddress_update_notify" (fun db tg =>
    old_node_id <- eval_expr tg "OLD.node_id" ;;
    new_node_id <- eval_expr tg "NEW.node_id" ;;
    and_then
      (if holds (old_node_id =/= new_node_id)%sql
       then
         let node := select_node_by_id db old_node_id in
         notify_node_or_device node
       else Ok [])
      (let node := select_node_by_id db new_node_id in
       notify_node_or_device node)).

(** Procedure that is called when a physical or virtual block device is
    updated. *)
Definition PHYSICAL_OR_VIRTUAL_BLOCK_DEVICE_NODE_NOTIFY
  (proc_name blockdevice_id : string) : procedure :=
  mk_procedure proc_name (fun db tg =>
    id <- eval_expr tg blockdevice_id ;;
    let node := select_into
      (flat_map (fun maasserver_node =>
         flat_map (fun maasserver_blockdevice =>
           where_ (col maasserver_node "id"
                     === col maasserver_blockdevice "node_id"
                   AND col maasserver_blockdevice "id" === id)%sql
                  maasserver_node)
         (rows_of db "maasserver_blockdevice"))
       (rows_of db "maasserver_node")) in
    notify_node_or_device node).

(** Procedure that is called when the partition table on a block device is
    updated.  The text selects [system_id] only and notifies [node_update]
    without a test. *)
Definition PARTITIONTABLE_NODE_NOTIFY (proc_name blockdevice_id : string)
  : procedure :=
  mk_procedure proc_name (fun db tg =>
    id <- eval_expr tg blockdevice_id ;;
    let node := select_into
      (flat_map (fun maasserver_node =>
         flat_map (fun maasserver_blockdevice =>
           where_ (col maasserver_node "id"
                     === col maasserver_blockdevice "node_id"
                   AND col maasserver_blockdevice "id" === id)%sql
                  maasserver_node)
         (rows_of db "maasserver_blockdevice"))
       (rows_of db "maasserver_node")) in
    pg_notify "node_update" (cast_text (rfield node "system_id"))).

(** Procedure that is called when the partition on a partition table is
    updated. *)
Definition PARTITION_NODE_NOTIFY (proc_name partitiontable_id : string)
  : procedure :=
  mk_procedure proc_name (fun db tg =>
    id <- eval_expr tg partitiontable_id ;;
    let node := select_into
      (flat_map (fun maasserver_node =>
         flat_map (fun maasserver_blockdevice =>
           flat_map (fun maasserver_partitiontable =>
             where_ (col maasserver_node "id"
                       === col maasserver_blockdevice "node_id"
                     AND col maasserver_blockdevice "id"
                         === col maasserver_partitiontable "block_device_id"
                     AND col maasserver_partitiontable "id" === id)%sql
                    maasserver_node)
           (rows_of db "maasserver_partitiontable"))
         (rows_of db "maasserver_blockdevice"))
       (rows_of db "maasserver_node")) in
    pg_notify "node_update" (cast_text (rfield node "system_id"))).

(** Procedure that is called when the filesystem on a partition is updated.
    In the WHERE clause AND binds tighter than OR. *)
Definition FILESYSTEM_NODE_NOTIFY
  (proc_name blockdevice_id partition_id : string) : procedure :=
  mk_procedure proc_name (fun db tg =>
    bd_id <- eval_expr tg blockdevice_id ;;
    part_id <- eval_expr tg partition_id ;;
    let node := select_into
      (flat_map (fun maasserver_node =>
         flat_map (fun maasserver_blockdevice =>
           flat_map (fun maasserver_partition =>
             flat_map (fun maasserver_partitiontable =>
               where_ (col maasserver_node "id"
                         === col maasserver_blockdevice "node_id"
                       AND col maasserver_blockdevice "id" === bd_id
                       OR (col maasserver_blockdevice "id"
                             === col maasserver_partitiontable "block_device_id"
                           AND col maasserver_partitiontable "id"
                               === col maasserver_partition "partition_table_id"
                           AND col maasserver_partition "id" === part_id))%sql
                      maasserver_node)
             (rows_of db "maasserver_partitiontable"))
           (rows_of db "maasserver_partition"))
         (rows_of db "maasserver_blockdevice"))
       (rows_of db "maasserver_node")) in
    if holds (rfield node "system_id" =/= VText "")%sql
    then pg_notify "node_update" (cast_text (rfield node "system_id"))
    else Ok []).

(** Procedure that is called when the filesystemgroup is updated. *)
Definition FILESYSTEMGROUP_NODE_NOTIFY
  (proc_name group_id cache_set_id : string) : procedure :=
  mk_procedure proc_name (fun db tg =>
    grp_id <- eval_expr tg group_id ;;
    cache_id <- eval_expr tg cache_set_id ;;
    let node := select_into
      (flat_map (fun maasserver_node =>
         flat_map (fun maasserver_blockdevice =>
           flat_map (fun maasserver_partition =>
             flat_map (fun maasserver_partitiontable =>
               flat_map (fun maasserver_filesystem =>
                 where_ (col maasserver_node "id"
                           === col maasserver_blockdevice "node_id"
                         AND col maasserver_blockdevice "id"
                             === col maasserver_partitiontable "block_device_id"
                         AND col maasserver_partitiontable "id"
                             === col maasserver_partition "partition_table_id"
                         AND col maasserver_partition "id"
                             === col maasserver_filesystem "partition_id"
                         AND (col maasserver_filesystem "filesystem_group_id"
                                === grp_id
                              OR col maasserver_filesystem "cache_set_id"
                                 === cache_id))%sql
                        maasserver_node)
               (rows_of db "maasserver_filesystem"))
             (rows_of db "maasserver_partitiontable"))
           (rows_of db "maasserver_partition"))
         (rows_of db "maasserver_blockdevice"))
       (rows_of db "maasserver_node")) in
    if holds (rfield node "system_id" =/= VText "")%sql
    then pg_notify "node_update" (cast_text (rfield node "system_id"))
    else Ok []).

(** Procedure that is called when the cacheset is updated. *)
Definition CACHESET_NODE_NOTIFY (proc_name cache_set_id : string) : procedure :=
  mk_procedure proc_name (fun db tg =>
    cache_id <- eval_expr tg cache_set_id ;;
    let node := select_into
      (flat_map (fun maasserver_node =>
         flat_map (fun maasserver_blockdevice =>
           flat_map (fun maasserver_partition =>
             flat_map (fun maasserver_partitiontable =>
               flat_map (fun maasserver_filesystem =>
                 where_ (col maasserver_node "id"
                           === col maasserver_blockdevice "node_id"
                         AND col maasserver_blockdevice "id"
                             === col maasserver_partitiontable "block_device_id"
                         AND col maasserver_partitiontable "id"
                             === col maasserver_partition "partition_table_id"
                         AND col maasserver_partition "id"
                             === col maasserver_filesystem "partition_id"
                         AND col maasserver_filesystem "cache_set_id"
                             === cache_id)%sql
                        maasserver_node)
               (rows_of db "maasserver_filesystem"))
             (rows_of db "maasserver_partitiontable"))
           (rows_of db "maasserver_partition"))
         (rows_of db "maasserver_blockdevice"))
       (rows_of db "maasserver_node")) in
    if holds (rfield node "system_id" =/= VText "")%sql
    then pg_notify "node_update" (cast_text (rfield node "system_id"))
    else Ok []).

Definition render_notification_procedure (proc_name event_name cast : string)
  : procedure :=
  mk_procedure proc_name (fun db tg =>
    v <- eval_expr tg cast ;;
    pg_notify event_name (cast_text v)).

Definition render_node_related_notification_procedure
  (proc_name node_id_relation : string) : procedure :=
  mk_procedure proc_name (fun db tg =>
    id <- eval_expr tg node_id_relation ;;
    let node := select_node_by_id db id in
    notify_node_or_device node).

(** ** The catalogue: procedures, triggers and views *)

(** The row operations a trigger can be bound to. *)
Inductive tg_op : Type := INSERT | UPDATE | DELETE.

Definition tg_op_eqb (a b : tg_op) : bool :=
  match a, b with
  | INSERT, INSERT | UPDATE, UPDATE | DELETE, DELETE => true
  | _, _ => false
  end.

Definition mem_op (op : tg_op) (ops : list tg_op) : bool :=
  existsb (tg_op_eqb op) ops.

(** A row of [pg_trigger]: the trigger [tgname] on table [tgrelid] calls the
    procedure [tgfoid] at [tgtiming] the events [tgevent], for each row that
    passes the WHEN condition [tgqual].  The catalogue holds the names as
    PostgreSQL read them and the events as a set, not the statement text. *)
Record trigger : Type := mk_trigger {
  tgname : string;
  tgrelid : string;
  tgtiming : string;
  tgevent : list tg_op;
  tgqual : option (list (string * string));
  tgfoid : string
}.

(** The SELECT texts of dbviews.py, by the name of the Python constant that
    holds each one. *)
Inductive view_query : Type :=
| maasserver_discovery
| maas_support__node_overview
| maas_support__device_overview
| maas_support__node_networking
| maas_support__boot_source_selections
| maas_support__boot_source_cache
| maas_support__configuration__excluding_rpc_shared_secret
| maas_support__license_keys_present__excluding_key_material
| maas_support__ssh_keys__by_user
| maas_support__commissioning_result_summary.

Record pg_catalog : Type := mk_catalog {
  pg_proc : list procedure;
  pg_trigger : list trigger;
  pg_views : list (string * view_query)
}.

Definition empty_catalog : pg_catalog := mk_catalog [] [] [].

(** A statement sent through the connection's cursor: it fails, or leaves a
    new catalogue. *)
Definition command : Type := pg_catalog -> result pg_catalog.

(** Python statements in sequence; the first failure aborts the rest. *)
Fixpoint run (cmds : list command) : command :=
  fun cat =>
    match cmds with
    | [] => Ok cat
    | c :: cmds' => cat' <- c cat ;; run cmds' cat'
    end.

Definition find_proc (name : string) (cat : pg_catalog) : option procedure :=
  find (fun p => String.eqb (proname p) name) (pg_proc cat).

Definition same_trigger (name table : string) (t : trigger) : bool :=
  String.eqb (tgname t) name && String.eqb (tgrelid t) table.

(** Objects that the catalogue identifies with each other: procedures by
    name, triggers by name and table, views by name. *)
Definition same_proc (p q : procedure) : bool :=
  String.eqb (proname q) (proname p).

Definition same_trig (t u : trigger) : bool :=
  same_trigger (tgname t) (tgrelid t) u.

Definition same_view (v w : string * view_query) : bool :=
  String.eqb (fst w) (fst v).

(** An object enters a catalogue list in the place of the one it is
    identified with. *)
Definition put {A : Type} (same : A -> A -> bool) (x : A) (l : list A)
  : list A :=
  filter (fun y => negb (same x y)) l ++ [x].

(** [CREATE OR REPLACE FUNCTION name() ...]: the procedure is stored under
    its name as PostgreSQL reads it; a procedure of that name is replaced. *)
Definition create_or_replace_function (p : procedure) : command :=
  fun cat =>
    Ok (mk_catalog
          (put same_proc (mk_procedure (identifier (proname p)) (prosrc p))
               (pg_proc cat))
          (pg_trigger cat)
          (pg_views cat)).

(** [DROP TRIGGER IF EXISTS name ON table]. *)
Definition drop_trigger_if_exists (name table : string) : command :=
  fun cat =>
    Ok (mk_catalog
          (pg_proc cat)
          (filter (fun t => negb (same_trigger (identifier name)
                                               (identifier table) t))
                  (pg_trigger cat))
          (pg_views cat)).

(** The timing of a row trigger on a table: [BEFORE] or [AFTER]. *)
Definition timing_of (timing : string) : option string :=
  match words timing with
  | [w] => if mem_string w ["BEFORE"; "AFTER"] then Some w else None
  | _ => None
  end.

Definition event_keyword (w : string) : option tg_op :=
  if String.eqb w "INSERT" then Some INSERT
  else if String.eqb w "UPDATE" then Some UPDATE
  else if String.eqb w "DELETE" then Some DELETE
  else None.

(** The events of a trigger: [INSERT], [UPDATE] and [DELETE] joined by
    [OR], none of them twice. *)
Fixpoint events_of_words (ws : list string) : option (list tg_op) :=
  match ws with
  | [w] => option_map (fun e => [e]) (event_keyword w)
  | w :: o :: ws' =>
      if String.eqb o "OR" then
        match event_keyword w, events_of_words ws' with
        | Some e, Some es => if mem_op e es then None else Some (e :: es)
        | _, _ => None
        end
      else None
  | [] => None
  end.

Definition events_of (event : string) : option (list tg_op) :=
  events_of_words (words event).

(** The WHEN clause that [register_trigger] writes is one comparison of a
    column of [NEW] or [OLD] with a literal.  An INSERT trigger cannot read
    [OLD] and a DELETE trigger cannot read [NEW]. *)
Definition check_when (events : list tg_op)
  (filter : option (list (string * string))) : result unit :=
  match filter with
  | None => Ok tt
  | Some [(key, _)] =>
      if prefix "NEW." key then
        if mem_op DELETE events
        then SqlError
               "DELETE trigger's WHEN condition cannot reference NEW values"
        else Ok tt
      else if prefix "OLD." key then
        if mem_op INSERT events
        then SqlError
               "INSERT trigger's WHEN condition cannot reference OLD values"
        else Ok tt
      else SqlError "syntax error"
  | Some _ => SqlError "syntax error"
  end.

(** [CREATE TRIGGER name timing event ON table FOR EACH ROW filter EXECUTE
    PROCEDURE procedure()], read in the fragment that the module writes:
    names are plain identifiers, the events carry no column list, and the
    table with the column of the filter is taken to exist (the catalogue
    keeps no list of tables).  The statement is refused when it does not
    parse, when its WHEN clause reads an image that its events do not
    provide, when the procedure does not exist, and when the table already
    has a trigger of that name. *)
Definition create_trigger (name timing event table : string)
  (filter : option (list (string * string))) (procedure : string) : command :=
  fun cat =>
    match timing_of timing, events_of event with
    | Some keyword, Some events =>
        _ <- check_when events filter ;;
        match find_proc (identifier procedure) cat with
        | None => SqlError "function does not exist"
        | Some _ =>
            if existsb (same_trigger (identifier name) (identifier table))
                       (pg_trigger cat)
            then SqlError "trigger already exists"
            else Ok (mk_catalog
                       (pg_proc cat)
                       (pg_trigger cat
                        ++ [mk_trigger (identifier name) (identifier table)
                              keyword events filter (identifier procedure)])
                       (pg_views cat))
        end
    | _, _ => SqlError "syntax error"
    end.

(** ** triggers.py: registration *)

(** Register [trigger] on [table].  [params] is the Python dict's list of
    items, or [None]; the callers that leave out [when] pass "after". *)
Definition register_trigger (table procedure event : string)
  (params : option (list (string * bool))) (when : string) : command :=
  let trigger_name := table ++ "_" ++ procedure in
  let filter :=
    match params with
    | Some items => Some (map (fun '(key, value) => (key, py_str value)) items)
    | None => None
    end in
  fun cat =>
    cat' <- drop_trigger_if_exists trigger_name table cat ;;
    create_trigger trigger_name (upper when) (upper event) table filter
                   procedure cat'.

(** Register the [procedure] SQL. *)
Definition register_procedure (procedure : procedure) : command :=
  create_or_replace_function procedure.

(** Register all triggers into the database. *)
Definition register_all_triggers : command :=
  run [
    (* Node(installable) table *)
    register_procedure (render_notification_procedure "node_create_notify"
      "node_create" "NEW.system_id");
    register_procedure (render_notification_procedure "node_update_notify"
      "node_update" "NEW.system_id");
    register_procedure (render_notification_procedure "node_delete_notify"
      "node_delete" "OLD.system_id");
    register_trigger "maasserver_node" "node_create_notify" "insert" (Some
      [("NEW.installable", true)]) "after";
    register_trigger "maasserver_node" "node_update_notify" "update" (Some
      [("NEW.installable", true)]) "after";
    register_trigger "maasserver_node" "node_delete_notify" "delete" (Some
      [("OLD.installable", true)]) "after";
    (* Node(device) table *)
    register_procedure (render_notification_procedure "device_create_notify"
      "device_create" "NEW.system_id");
    register_procedure (render_notification_procedure "device_update_notify"
      "device_update" "NEW.system_id");
    register_procedure (render_notification_procedure "device_delete_notify"
      "device_delete" "OLD.system_id");
    register_trigger "maasserver_node" "device_create_notify" "insert" (Some
      [("NEW.installable", false)]) "after";
    register_trigger "maasserver_node" "device_update_notify" "update" (Some
      [("NEW.installable", false)]) "after";
    register_trigger "maasserver_node" "device_delete_notify" "delete" (Some
      [("OLD.installable", false)]) "after";
    (* Nodegroup table *)
    register_procedure (render_notification_procedure
      "nodegroup_create_notify" "nodegroup_create" "NEW.id");
    register_procedure (render_notification_procedure
      "nodegroup_update_notify" "nodegroup_update" "NEW.id");
    register_procedure (render_notification_procedure
      "nodegroup_delete_notify" "nodegroup_delete" "OLD.id");
    register_trigger "maasserver_nodegroup" "nodegroup_create_notify" "insert"
      None "after";
    register_trigger "maasserver_nodegroup" "nodegroup_update_notify" "update"
      None "after";
    register_trigger "maasserver_nodegroup" "nodegroup_delete_notify" "delete"
      None "after";
    (* Nodegroup interface table *)
    register_procedure (NODEGROUP_INTERFACE_NODEGROUP_NOTIFY
      "nodegroupinterface_create_notify" "NEW.nodegroup_id");
    register_procedure (NODEGROUP_INTERFACE_NODEGROUP_NOTIFY
      "nodegroupinterface_update_notify" "NEW.nodegroup_id");
    register_procedure (NODEGROUP_INTERFACE_NODEGROUP_NOTIFY
      "nodegroupinterface_delete_notify" "OLD.nodegroup_id");
    register_trigger "maasserver_nodegroupinterface"
      "nodegroupinterface_create_notify" "insert" None "after";
    register_trigger "maasserver_nodegroupinterface"
      "nodegroupinterface_update_notify" "update" None "after";
    register_trigger "maasserver_nodegroupinterface"
      "nodegroupinterface_delete_notify" "delete" None "after";
    (* Zone table *)
    register_procedure (render_notification_procedure "zone_create_notify"
      "zone_create" "NEW.id");
    register_procedure (render_notification_procedure "zone_update_notify"
      "zone_update" "NEW.id");
    register_procedure (render_notification_procedure "zone_delete_notify"
      "zone_delete" "OLD.id");
    register_trigger "maasserver_zone" "zone_create_notify" "insert" None
      "after";
    register_trigger "maasserver_zone" "zone_update_notify" "update" None
      "after";
    register_trigger "maasserver_zone" "zone_delete_notify" "delete" None
      "after";
    (* Tag table *)
    register_procedure (render_notification_procedure "tag_create_notify"
      "tag_create" "NEW.id");
    register_procedure (render_notification_procedure "tag_update_notify"
      "tag_update" "NEW.id");
    register_procedure (render_notification_procedure "tag_delete_notify"
      "tag_delete" "OLD.id");
    register_trigger "maasserver_tag" "tag_create_notify" "insert" None "after";
    register_trigger "maasserver_tag" "tag_update_notify" "update" None "after";
    register_trigger "maasserver_tag" "tag_delete_notify" "delete" None "after";
    (* Node tag link table *)
    register_procedure (NODE_TAG_NOTIFY "node_device_tag_link_notify"
      "NEW.node_id");
    register_procedure (NODE_TAG_NOTIFY "node_device_tag_unlink_notify"
      "OLD.node_id");
    register_trigger "maasserver_node_tags" "node_device_tag_link_notify"
      "insert" None "after";
    register_trigger "maasserver_node_tags" "node_device_tag_unlink_notify"
      "delete" None "after";
    (* Tag table, update to linked nodes. *)
    register_procedure TAG_NODES_NOTIFY;
    register_trigger "maasserver_tag" "tag_update_node_device_notify" "update"
      None "after";
    (* User table *)
    register_procedure (render_notification_procedure "user_create_notify"
      "user_create" "NEW.id");
    register_procedure (render_notification_procedure "user_update_notify"
      "user_update" "NEW.id");
    register_procedure (render_notification_procedure "user_delete_notify"
      "user_delete" "OLD.id");
    register_trigger "auth_user" "user_create_notify" "insert" None "after";
    register_trigger "auth_user" "user_update_notify" "update" None "after";
    register_trigger "auth_user" "user_delete_notify" "delete" None "after";
    (* Events table *)
    register_procedure (render_notification_procedure "event_create_notify"
      "event_create" "NEW.id");
    register_procedure (render_notification_procedure "event_update_notify"
      "event_update" "NEW.id");
    register_procedure (render_notification_procedure "event_delete_notify"
      "event_delete" "OLD.id");
    register_trigger "maasserver_event" "event_create_notify" "insert" None
      "after";
    register_trigger "maasserver_event" "event_update_notify" "update" None
      "after";
    register_trigger "maasserver_event" "event_delete_notify" "delete" None
      "after";
    (* Events table, update to linked node. *)
    register_procedure EVENT_NODE_NOTIFY;
    register_trigger "maasserver_event" "event_create_node_device_notify"
      "insert" None "after";
    (* MAC static ip address table, update to linked node. *)
    register_procedure (MACSTATICIPADDRESSLINK_NODE_NOTIFY
      "nd_sipaddress_link_notify" "NEW.mac_address_id");
    register_procedure (MACSTATICIPADDRESSLINK_NODE_NOTIFY
      "nd_sipaddress_unlink_notify" "OLD.mac_address_id");
    register_trigger "maasserver_macstaticipaddresslink"
      "nd_sipaddress_link_notify" "insert" None "after";
    register_trigger "maasserver_macstaticipaddresslink"
      "nd_sipaddress_unlink_notify" "delete" None "after";
    (* DHCP lease table, update to linked node. *)
    register_procedure (DHCPLEASE_NODE_NOTIFY "nd_dhcplease_match_notify"
      "NEW.mac");
    register_procedure (DHCPLEASE_NODE_NOTIFY "nd_dhcplease_unmatch_notify"
      "OLD.mac");
    register_trigger "maasserver_dhcplease" "nd_dhcplease_match_notify"
      "insert" None "after";
    register_trigger "maasserver_dhcplease" "nd_dhcplease_unmatch_notify"
      "delete" None "after";
    (* Node result table, update to linked node. *)
    register_procedure (render_node_related_notification_procedure
      "nd_noderesult_link_notify" "NEW.node_id");
    register_procedure (render_node_related_notification_procedure
      "nd_noderesult_unlink_notify" "OLD.node_id");
    register_trigger "metadataserver_noderesult" "nd_noderesult_link_notify"
      "insert" None "after";
    register_trigger "metadataserver_noderesult" "nd_noderesult_unlink_notify"
      "delete" None "after";
    (* MAC address table, update to linked node. *)
    register_procedure (render_node_related_notification_procedure
      "nd_macaddress_link_notify" "NEW.node_id");
    register_procedure (render_node_related_notification_procedure
      "nd_macaddress_unlink_notify" "OLD.node_id");
    register_procedure MACADDRESS_UPDATE_NODE_NOTIFY;
    register_trigger "maasserver_macaddress" "nd_macaddress_link_notify"
      "insert" None "after";
    register_trigger "maasserver_macaddress" "nd_macaddress_unlink_notify"
      "delete" None "after";
    register_trigger "maasserver_macaddress" "nd_macaddress_update_notify"
      "update" None "after";
    (* Block device table, update to linked node. *)
    register_procedure (render_node_related_notification_procedure
      "nd_blockdevice_link_notify" "NEW.node_id");
    register_procedure (render_node_related_notification_procedure
      "nd_blockdevice_update_notify" "NEW.node_id");
    register_procedure (render_node_related_notification_procedure
      "nd_blockdevice_unlink_notify" "OLD.node_id");
    register_procedure (PHYSICAL_OR_VIRTUAL_BLOCK_DEVICE_NODE_NOTIFY
      "nd_physblockdevice_update_notify" "NEW.blockdevice_ptr_id");
    register_procedure (PHYSICAL_OR_VIRTUAL_BLOCK_DEVICE_NODE_NOTIFY
      "nd_virtblockdevice_update_notify" "NEW.blockdevice_ptr_id");
    register_trigger "maasserver_blockdevice" "nd_blockdevice_link_notify"
      "insert" None "after";
    register_trigger "maasserver_blockdevice" "nd_blockdevice_update_notify"
      "update" None "after";
    register_trigger "maasserver_blockdevice" "nd_blockdevice_unlink_notify"
      "delete" None "after";
    register_trigger "maasserver_physicalblockdevice"
      "nd_physblockdevice_update_notify" "update" None "after";
    register_trigger "maasserver_virtualblockdevice"
      "nd_virtblockdevice_update_notify" "update" None "after";
    (* Partition table, update to linked user. *)
    register_procedure (PARTITIONTABLE_NODE_NOTIFY
      "nd_partitiontable_link_notify" "NEW.block_device_id");
    register_procedure (PARTITIONTABLE_NODE_NOTIFY
      "nd_partitiontable_update_notify" "NEW.block_device_id");
    register_procedure (PARTITIONTABLE_NODE_NOTIFY
      "nd_partitiontable_unlink_notify" "OLD.block_device_id");
    register_trigger "maasserver_partitiontable"
      "nd_partitiontable_link_notify" "insert" None "after";
    register_trigger "maasserver_partitiontable"
      "nd_partitiontable_update_notify" "update" None "after";
    register_trigger "maasserver_partitiontable"
      "nd_partitiontable_unlink_notify" "delete" None "after";
    (* Partition, update to linked user. *)
    register_procedure (PARTITION_NODE_NOTIFY "nd_partition_link_notify"
      "NEW.partition_table_id");
    register_procedure (PARTITION_NODE_NOTIFY "nd_partition_update_notify"
      "NEW.partition_table_id");
    register_procedure (PARTITION_NODE_NOTIFY "nd_partition_unlink_notify"
      "OLD.partition_table_id");
    register_trigger "maasserver_partition" "nd_partition_link_notify"
      "insert" None "after";
    register_trigger "maasserver_partition" "nd_partition_update_notify"
      "update" None "after";
    register_trigger "maasserver_partition" "nd_partition_unlink_notify"
      "delete" None "after";
    (* Filesystem, update to linked user. *)
    register_procedure (FILESYSTEM_NODE_NOTIFY "nd_filesystem_link_notify"
      "NEW.block_device_id" "NEW.partition_id");
    register_procedure (FILESYSTEM_NODE_NOTIFY "nd_filesystem_update_notify"
      "NEW.block_device_id" "NEW.partition_id");
    register_procedure (FILESYSTEM_NODE_NOTIFY "nd_filesystem_unlink_notify"
      "OLD.block_device_id" "OLD.partition_id");
    register_trigger "maasserver_filesystem" "nd_filesystem_link_notify"
      "insert" None "after";
    register_trigger "maasserver_filesystem" "nd_filesystem_update_notify"
      "update" None "after";
    register_trigger "maasserver_filesystem" "nd_filesystem_unlink_notify"
      "delete" None "after";
    (* Filesystemgroup, update to linked user. *)
    register_procedure (FILESYSTEMGROUP_NODE_NOTIFY
      "nd_filesystemgroup_link_notify" "NEW.id" "NEW.cache_set_id");
    register_procedure (FILESYSTEMGROUP_NODE_NOTIFY
      "nd_filesystemgroup_update_notify" "NEW.id" "NEW.cache_set_id");
    register_procedure (FILESYSTEMGROUP_NODE_NOTIFY
      "nd_filesystemgroup_unlink_notify" "OLD.id" "OLD.cache_set_id");
    register_trigger "maasserver_filesystemgroup"
      "nd_filesystemgroup_link_notify" "insert" None "after";
    register_trigger "maasserver_filesystemgroup"
      "nd_filesystemgroup_update_notify" "update" None "after";
    register_trigger "maasserver_filesystemgroup"
      "nd_filesystemgroup_unlink_notify" "delete" None "after";
    (* Cacheset, update to linked user. *)
    register_procedure (CACHESET_NODE_NOTIFY "nd_cacheset_link_notify"
      "NEW.id");
    register_procedure (CACHESET_NODE_NOTIFY "nd_cacheset_update_notify"
      "NEW.id");
    register_procedure (CACHESET_NODE_NOTIFY "nd_cacheset_unlink_notify"
      "OLD.id");
    register_trigger "maasserver_cacheset" "nd_cacheset_link_notify" "insert"
      None "after";
    register_trigger "maasserver_cacheset" "nd_cacheset_update_notify"
      "update" None "after";
    register_trigger "maasserver_cacheset" "nd_cacheset_unlink_notify"
      "delete" None "after";
    (* SSH key table, update to linked user. *)
    register_procedure (render_notification_procedure
      "user_sshkey_link_notify" "user_update" "NEW.user_id");
    register_procedure (render_notification_procedure
      "user_sshkey_unlink_notify" "user_update" "OLD.user_id");
    register_trigger "maasserver_sshkey" "user_sshkey_link_notify" "insert"
      None "after";
    register_trigger "maasserver_sshkey" "user_sshkey_unlink_notify" "delete"
      None "after";
    (* SSL key table, update to linked user. *)
    register_procedure (render_notification_procedure
      "user_sslkey_link_notify" "user_update" "NEW.user_id");
    register_procedure (render_notification_procedure
      "user_sslkey_unlink_notify" "user_update" "OLD.user_id");
    register_trigger "maasserver_sslkey" "user_sslkey_link_notify" "insert"
      None "after";
    register_trigger "maasserver_sslkey" "user_sslkey_unlink_notify" "delete"
      None "after"
  ].

(** ** Firing the triggers of a table *)

(** Triggers of one event on one table fire in the alphabetical order of
    their names. *)
Fixpoint insert_by_name (t : trigger) (ts : list trigger) : list trigger :=
  match ts with
  | [] => [t]
  | u :: ts' =>
      if String.leb (tgname t) (tgname u) then t :: u :: ts'
      else u :: insert_by_name t ts'
  end.

Definition sort_by_name (ts : list trigger) : list trigger :=
  fold_right insert_by_name [] ts.

(** The AFTER row triggers of [table] for [op], in firing order.  The
    module registers no other kind: a BEFORE trigger would run on the table
    as it is before the change. *)
Definition triggers_for (cat : pg_catalog) (table : string) (op : tg_op)
  : list trigger :=
  sort_by_name
    (filter (fun t => String.eqb (tgrelid t) table
                      && mem_op op (tgevent t)
                      && String.eqb (tgtiming t) "AFTER")
            (pg_trigger cat)).

(** The WHEN condition of a trigger on the row images. *)
Definition when_holds (t : trigger) (tg : tg_data) : result bool :=
  match tgqual t with
  | None => Ok true
  | Some [(key, lit)] =>
      v <- eval_expr tg key ;; Ok (holds (sql_eq_literal v lit))
  | Some _ => SqlError "syntax error"
  end.

(** One trigger: when its condition holds, its procedure runs on the
    database as the trigger sees it. *)
Definition fire_trigger (cat : pg_catalog) (db : database) (tg : tg_data)
  (t : trigger) : result (list notification) :=
  go <- when_holds t tg ;;
  if go then
    match find_proc (tgfoid t) cat with
    | Some p => prosrc p db tg
    | None => SqlError "function does not exist"
    end
  else Ok [].

Fixpoint fire_all (cat : pg_catalog) (db : database) (tg : tg_data)
  (ts : list trigger) : result (list notification) :=
  match ts with
  | [] => Ok []
  | t :: ts' => and_then (fire_trigger cat db tg t) (fire_all cat db tg ts')
  end.

(** The notifications that one row mutation sends: [op] on a row of [table]
    with images [tg], against the database [db] the triggers see. *)
Definition fire (cat : pg_catalog) (db : database) (table : string)
  (op : tg_op) (tg : tg_data) : result (list notification) :=
  fire_all cat db tg (triggers_for cat table op).

(** The three row mutations with the images each one provides. *)
Definition on_insert (cat : pg_catalog) (db : database) (table : string)
  (new : row) : result (list notification) :=
  fire cat db table INSERT (mk_tg None (Some new)).

Definition on_update (cat : pg_catalog) (db : database) (table : string)
  (old new : row) : result (list notification) :=
  fire cat db table UPDATE (mk_tg (Some old) (Some new)).

Definition on_delete (cat : pg_catalog) (db : database) (table : string)
  (old : row) : result (list notification) :=
  fire cat db table DELETE (mk_tg (Some old) None).

(** The catalogue of a database on which [register_all_triggers] ran,
    evaluated once; the procedure bodies are kept as they are written. *)
Definition registered : pg_catalog :=
  Eval lazy -[eval_expr image_field select_node_by_id notify_node_or_device
              pg_notify select_into flat_map rows_of for_loop and_then rfield
              col field cast_text holds sql_eq sql_neq sql_and sql_or as_cond
              where_ sql_eq_literal text_or_empty text_of_int row table
              database notification tv] in
  match register_all_triggers empty_catalog with
  | Ok cat => cat
  | SqlError _ => empty_catalog
  end.

(** ** dbviews.py *)

(** The columns that each SELECT generates, in order: the alias of a
    select-list entry, or the name of its column. *)
Definition view_columns (view_sql : view_query) : list string :=
  match view_sql with
  | maasserver_discovery =>
      [ "id"; "discovery_id"; "neighbour_id"; "ip"; "mac_address"; "vid";
        "last_seen"; "mdns_id"; "hostname"; "observer_id";
        "observer_system_id"; "observer_hostname"; "observer_interface_id";
        "observer_interface_name"; "fabric_id"; "fabric_name"; "vlan_id";
        "subnet_id"; "subnet_cidr"; "subnet_prefixlen" ]
  | maas_support__node_overview =>
      [ "hostname"; "system_id"; "cpu"; "memory" ]
  | maas_support__device_overview =>
      [ "hostname"; "system_id"; "parent" ]
  | maas_support__node_networking =>
      [ "hostname"; "ifid"; "name"; "type"; "mac_address"; "ip";
        "alloc_type"; "cidr"; "vid"; "fabric" ]
  | maas_support__boot_source_selections =>
      [ "url"; "release"; "arches"; "subarches"; "labels"; "os" ]
  | maas_support__boot_source_cache =>
      [ "url"; "label"; "os"; "release"; "arch"; "subarch" ]
  | maas_support__configuration__excluding_rpc_shared_secret =>
      [ "name"; "value" ]
  | maas_support__license_keys_present__excluding_key_material =>
      [ "osystem"; "distro_series" ]
  | maas_support__ssh_keys__by_user =>
      [ "username"; "key" ]
  | maas_support__commissioning_result_summary =>
      [ "hostname"; "result_count"; "max_script_result"; "max_result_type" ]
  end.

Fixpoint starts_with (old new : list string) : bool :=
  match old, new with
  | [], _ => true
  | o :: old', n :: new' => String.eqb o n && starts_with old' new'
  | _ :: _, [] => false
  end.

(** A view is replaced only by a query that generates the columns of the
    view, in the same order, possibly followed by more.  (The types of the
    columns have to agree as well; among the queries of this module the
    names decide, see [view_columns_decide].) *)
Definition check_columns (old new : list string) : result unit :=
  if (List.length new <? List.length old)%nat
  then SqlError "cannot drop columns from view"
  else if starts_with old new then Ok tt
  else SqlError "cannot change name of view column".

Definition find_view (view_name : string) (views : list (string * view_query))
  : option (string * view_query) :=
  find (fun v => String.eqb (fst v) view_name) views.

(** [DROP VIEW IF EXISTS view_name]. *)
Definition _drop_view_if_exists (view_name : string) : command :=
  fun cat =>
    Ok (mk_catalog
          (pg_proc cat) (pg_trigger cat)
          (filter (fun v => negb (String.eqb (fst v) (identifier view_name)))
                  (pg_views cat))).

(** [CREATE OR REPLACE VIEW view_name AS (view_sql)] on the views of the
    catalogue. *)
Definition create_or_replace_view (view_name : string) (view_sql : view_query)
  (views : list (string * view_query)) : result (list (string * view_query)) :=
  _ <- match find_view (identifier view_name) views with
       | Some (_, replaced) =>
           check_columns (view_columns replaced) (view_columns view_sql)
       | None => Ok tt
       end ;;
  Ok (put same_view (identifier view_name, view_sql) views).

Definition _register_view (view_name : string) (view_sql : view_query)
  : command :=
  fun cat =>
    views <- create_or_replace_view view_name view_sql (pg_views cat) ;;
    Ok (mk_catalog (pg_proc cat) (pg_trigger cat) views).

(** Dictionary of view_name: view_sql tuples which describe the database
    views. *)
Definition _ALL_VIEWS : list (string * view_query) :=
  [ ("maasserver_discovery", maasserver_discovery);
    ("maas_support__node_overview", maas_support__node_overview);
    ("maas_support__device_overview", maas_support__device_overview);
    ("maas_support__node_networking", maas_support__node_networking);
    ("maas_support__boot_source_selections",
     maas_support__boot_source_selections);
    ("maas_support__boot_source_cache", maas_support__boot_source_cache);
    ("maas_support__configuration__excluding_rpc_shared_secret",
     maas_support__configuration__excluding_rpc_shared_secret);
    ("maas_support__license_keys_present__excluding_key_material",
     maas_support__license_keys_present__excluding_key_material);
    ("maas_support__ssh_keys__by_user", maas_support__ssh_keys__by_user);
    ("maas_support__commissioning_result_summary",
     maas_support__commissioning_result_summary) ].

(** Register all views into the database. *)
Definition register_all_views : command :=
  run (map (fun '(view_name, view_sql) => _register_view view_name view_sql)
           _ALL_VIEWS).

(** Drop all views from the database. *)
Definition drop_all_views : command :=
  run (map (fun view_name => _drop_view_if_exists view_name)
           (map fst _ALL_VIEWS)).

(** Register a view by name (only for use in tests); a name that is not in
    [_ALL_VIEWS] is a KeyError. *)
Definition register_view (view_name : string) : command :=
  fun cat =>
    match find (fun v => String.eqb (fst v) view_name) _ALL_VIEWS with
    | Some (_, view_sql) => _register_view view_name view_sql cat
    | None => SqlError "KeyError"
    end.

(** ** Vocabulary of the statements *)

(** Several objects put in a catalogue list, one after the other. *)
Definition install {A : Type} (same : A -> A -> bool) (xs l : list A)
  : list A :=
  fold_left (fun acc x => put same x acc) xs l.

(** No two objects of the list are identified with each other. *)
Fixpoint distinctb {A : Type} (same : A -> A -> bool) (xs : list A) : bool :=
  match xs with
  | [] => true
  | x :: xs' => negb (existsb (same x) xs') && distinctb same xs'
  end.


(** The payload a node is notified with: its [system_id] as text. *)
Definition payload_of (node : row) : string :=
  text_or_empty (cast_text (col node "system_id")).

(** The ids of the Node table; they are its primary key when they are
    pairwise distinct. *)
Definition node_ids (db : database) : list value :=
  map (fun n => col n "id") (rows_of db "maasserver_node").

(** The rows of the link table [maasserver_node_tags] that carry tag [t]. *)
Definition tag_links (db : database) (t : Z) : list row :=
  filter (fun l => holds (col l "tag_id" === VInt t)%sql)
         (rows_of db "maasserver_node_tags").

(** The images that a row operation provides to its triggers, and the row
    whose columns identify the change: the new row of an insert or update,
    the old row of a delete. *)
Definition images (op : tg_op) (old new : row) : tg_data :=
  match op with
  | INSERT => mk_tg None (Some new)
  | UPDATE => mk_tg (Some old) (Some new)
  | DELETE => mk_tg (Some old) None
  end.

Definition changed_row (op : tg_op) (old new : row) : row :=
  match op with
  | DELETE => old
  | _ => new
  end.








(** The views of the catalogue that stand in the way of a registration:
    a view that goes by a name of [_ALL_VIEWS] and does not have the first
    columns of the view of that name. *)
Definition views_replaceable (views : list (string * view_query)) : bool :=
  forallb (fun '(view_name, view_sql) =>
             match find_view view_name views with
             | Some (_, replaced) =>
                 starts_with (view_columns replaced) (view_columns view_sql)
             | None => true
             end)
          _ALL_VIEWS.

(** ** Sample data: a machine, a device that owns block device 5, and a
    tag carried by both *)

Definition sample_node : row :=
  [("id", VInt 1); ("system_id", VText "node-1"); ("installable", VBool true)].

Definition sample_device : row :=
  [("id", VInt 2); ("system_id", VText "device-2");
   ("installable", VBool false)].

Definition sample_db : database :=
  [ ("maasserver_node", [sample_node; sample_device]);
    ("maasserver_node_tags",
     [ [("id", VInt 1); ("node_id", VInt 1); ("tag_id", VInt 7)];
       [("id", VInt 2); ("node_id", VInt 2); ("tag_id", VInt 7)] ]);
    ("maasserver_blockdevice", [ [("id", VInt 5); ("node_id", VInt 2)] ]) ].

(** ** Vocabulary of the further statements *)

(** Table and operation pairs with a single binding that notifies the id of
    the changed row, with the channel of each. *)
Definition id_bindings : list (string * tg_op * string) :=
  [ ("maasserver_nodegroup", INSERT, "nodegroup_create");
    ("maasserver_nodegroup", UPDATE, "nodegroup_update");
    ("maasserver_nodegroup", DELETE, "nodegroup_delete");
    ("maasserver_zone", INSERT, "zone_create");
    ("maasserver_zone", UPDATE, "zone_update");
    ("maasserver_zone", DELETE, "zone_delete");
    ("maasserver_tag", INSERT, "tag_create");
    ("maasserver_tag", DELETE, "tag_delete");
    ("auth_user", INSERT, "user_create");
    ("auth_user", UPDATE, "user_update");
    ("auth_user", DELETE, "user_delete");
    ("maasserver_event", UPDATE, "event_update");
    ("maasserver_event", DELETE, "event_delete") ].

(** Table and operation pairs whose binding looks the owning node up by the
    [node_id] column of the changed row. *)
Definition node_id_bindings : list (string * tg_op) :=
  [ ("maasserver_node_tags", INSERT); ("maasserver_node_tags", DELETE);
    ("metadataserver_noderesult", INSERT);
    ("metadataserver_noderesult", DELETE);
    ("maasserver_macaddress", INSERT); ("maasserver_macaddress", DELETE);
    ("maasserver_blockdevice", INSERT); ("maasserver_blockdevice", UPDATE);
    ("maasserver_blockdevice", DELETE) ].

(** Table and operation pairs whose binding reaches the owning node through
    one more table: the column of the changed row, the table joined, and the
    column of that table the value is compared with. *)
Definition link_bindings : list (string * tg_op * (string * string * string)) :=
  [ ("maasserver_macstaticipaddresslink", INSERT,
     ("mac_address_id", "maasserver_macaddress", "id"));
    ("maasserver_macstaticipaddresslink", DELETE,
     ("mac_address_id", "maasserver_macaddress", "id"));
    ("maasserver_dhcplease", INSERT,
     ("mac", "maasserver_macaddress", "mac_address"));
    ("maasserver_dhcplease", DELETE,
     ("mac", "maasserver_macaddress", "mac_address"));
    ("maasserver_physicalblockdevice", UPDATE,
     ("blockdevice_ptr_id", "maasserver_blockdevice", "id"));
    ("maasserver_virtualblockdevice", UPDATE,
     ("blockdevice_ptr_id", "maasserver_blockdevice", "id")) ].

(** A machine with a partitioned disk: block device 5 of node-1 carries
    partition table 7 with partition 8, which holds filesystem 3 of
    filesystem group 6.  The device device-2 comes first in the Node table. *)
Definition sample_storage_db : database :=
  [ ("maasserver_node", [sample_device; sample_node]);
    ("maasserver_blockdevice", [ [("id", VInt 5); ("node_id", VInt 1)] ]);
    ("maasserver_partitiontable",
     [ [("id", VInt 7); ("block_device_id", VInt 5)] ]);
    ("maasserver_partition",
     [ [("id", VInt 8); ("partition_table_id", VInt 7)] ]);
    ("maasserver_filesystem",
     [ [("id", VInt 3); ("block_device_id", VNull); ("partition_id", VInt 8);
        ("filesystem_group_id", VInt 6); ("cache_set_id", VNull)] ]) ].

(** A catalogue with one procedure and an earlier trigger of the name that
    [register_trigger] gives the zone binding, on another event. *)
Definition sample_catalog : pg_catalog :=
  mk_catalog
    [render_notification_procedure "zone_create_notify" "zone_create" "NEW.id"]
    [mk_trigger "maasserver_zone_zone_create_notify" "maasserver_zone"
       "AFTER" [DELETE] None "zone_create_notify"]
    [].

(** The columns of the changed row that the bindings of each table read. *)
Definition column_table : list (string * list string) :=
  [ ("maasserver_node", ["installable"; "system_id"]);
    ("maasserver_nodegroup", ["id"]);
    ("maasserver_nodegroupinterface", ["nodegroup_id"]);
    ("maasserver_zone", ["id"]);
    ("maasserver_tag", ["id"]);
    ("maasserver_node_tags", ["node_id"]);
    ("auth_user", ["id"]);
    ("maasserver_event", ["id"; "node_id"]);
    ("maasserver_macstaticipaddresslink", ["mac_address_id"]);
    ("maasserver_dhcplease", ["mac"]);
    ("metadataserver_noderesult", ["node_id"]);
    ("maasserver_macaddress", ["node_id"]);
    ("maasserver_blockdevice", ["node_id"]);
    ("maasserver_physicalblockdevice", ["blockdevice_ptr_id"]);
    ("maasserver_virtualblockdevice", ["blockdevice_ptr_id"]);
    ("maasserver_partitiontable", ["block_device_id"]);
    ("maasserver_partition", ["partition_table_id"]);
    ("maasserver_filesystem", ["block_device_id"; "partition_id"]);
    ("maasserver_filesystemgroup", ["id"; "cache_set_id"]);
    ("maasserver_cacheset", ["id"]);
    ("maasserver_sshkey", ["user_id"]);
    ("maasserver_sslkey", ["user_id"]) ].

Definition columns_read (tbl : string) : list string :=
  match find (fun e => String.eqb (fst e) tbl) column_table with
  | Some (_, columns) => columns
  | None => []
  end.

(** The row has a value, possibly NULL, in each of the columns. *)
Definition has_columns (columns : list string) (r : row) : Prop :=
  forall c, In c columns -> field c r <> None.

(** * Properties *)

(** ** Evaluation of the substituted expressions *)

Lemma substring_whole (s : string) : substring 0 (String.length s) s = s.
Proof.
  induction s as [|c s IH]; simpl; [reflexivity | now rewrite IH].
Qed.

Lemma eval_expr_NEW (tg : tg_data) (c : string) :
  eval_expr tg (String "N" (String "E" (String "W" (String "." c))))
  = image_field (NEW tg) c.
Proof.
  unfold eval_expr. simpl.
  replace (prefix "" c) with true by (now destruct c).
  now rewrite Nat.sub_0_r, substring_whole.
Qed.

Lemma eval_expr_OLD (tg : tg_data) (c : string) :
  eval_expr tg (String "O" (String "L" (String "D" (String "." c))))
  = image_field (OLD tg) c.
Proof.
  unfold eval_expr. simpl.
  replace (prefix "" c) with true by (now destruct c).
  now rewrite Nat.sub_0_r, substring_whole.
Qed.

Lemma image_field_some (r : row) (c : string) (v : value) :
  field c r = Some v -> image_field (Some r) c = Ok v.
Proof. intros H. unfold image_field. now rewrite H. Qed.


Lemma holds_bool_literal_True (b : bool) :
  holds (sql_eq_literal (VBool b) "True") = b.
Proof. now destruct b. Qed.

Lemma holds_bool_literal_False (b : bool) :
  holds (sql_eq_literal (VBool b) "False") = negb b.
Proof. now destruct b. Qed.

(** Symbolic execution of the registered triggers: the catalogue is
    evaluated, the queries and the row images are left as they are. *)
Ltac run_registered :=
  unfold on_insert, on_update, on_delete;
  match goal with
  | |- context [fire ?cat ?db ?tbl ?op ?tg] =>
      let r := eval lazy -[eval_expr image_field select_node_by_id
                           notify_node_or_device pg_notify select_into
                           flat_map rows_of for_loop and_then rfield col
                           field cast_text holds sql_eq sql_neq sql_and
                           sql_or as_cond where_ sql_eq_literal
                           text_or_empty text_of_int row table database
                           notification tv]
               in (fire cat db tbl op tg) in
      change (fire cat db tbl op tg) with r
  end.

Ltac eval_images :=
  repeat first
    [ rewrite eval_expr_NEW | rewrite eval_expr_OLD ];
  cbn [NEW OLD].

(** ** The registered catalogue *)

Lemma registered_is_registration :
  register_all_triggers empty_catalog = Ok registered.
Proof. vm_compute. reflexivity. Qed.

(** Trigger names fit in a PostgreSQL identifier (63 bytes), so none is
    truncated into another. *)
Lemma registered_trigger_names_fit :
  forallb (fun t => Nat.leb (String.length (tgname t)) 63)
          (pg_trigger registered) = true.
Proof. vm_compute. reflexivity. Qed.

(** ** Rows of the Node table *)

(** C1 (as the code has it): inserting a Node row sends exactly one
    notification, whose payload is the new row's [system_id]; it goes to
    [node_create] when the row is installable and to [device_create] when it
    is not, and to no other channel. *)
Theorem C1_node_insert_notifies_create :
  forall (db : database) (new : row) (sid : string) (b : bool),
    field "installable" new = Some (VBool b) ->
    field "system_id" new = Some (VText sid) ->
    on_insert registered db "maasserver_node" new
    = Ok [(if b then "node_create" else "device_create", sid)].
Proof.
  intros db new sid b Hb Hs.
  run_registered. eval_images.
  rewrite (image_field_some _ _ _ Hb), (image_field_some _ _ _ Hs).
  rewrite holds_bool_literal_True, holds_bool_literal_False.
  destruct b; reflexivity.
Qed.

Lemma C1_node_insert_witness :
  field "installable"
    [("id", VInt 1); ("system_id", VText "abc"); ("installable", VBool true)]
  = Some (VBool true)
  /\ on_insert registered [] "maasserver_node"
       [("id", VInt 1); ("system_id", VText "abc"); ("installable", VBool true)]
     = Ok [("node_create", "abc")].
Proof.
  split; [reflexivity |].
  apply (C1_node_insert_notifies_create [] _ "abc" true); reflexivity.
Defined.

(** C1 as stated fails: the insert of Node{id=1, system_id="abc",
    installable=true} sends [node_create("abc")], and nothing on
    [node_update]. *)
Lemma C1_node_insert_not_node_update :
  on_insert registered [] "maasserver_node"
    [("id", VInt 1); ("system_id", VText "abc"); ("installable", VBool true)]
  = Ok [("node_create", "abc")]
  /\ on_insert registered [] "maasserver_node"
       [("id", VInt 1); ("system_id", VText "abc"); ("installable", VBool true)]
     <> Ok [("node_update", "abc")].
Proof.
  assert (E : on_insert registered [] "maasserver_node"
      [("id", VInt 1); ("system_id", VText "abc"); ("installable", VBool true)]
    = Ok [("node_create", "abc")]) by (vm_compute; reflexivity).
  split; [exact E | rewrite E; discriminate].
Qed.

(** C5 (as the code has it): deleting a Node row sends exactly one
    notification, whose payload is read off the pre-delete image
    ([OLD.system_id]); it goes to [node_delete] when the deleted row was
    installable and to [device_delete] when it was not, whatever the database
    holds when the trigger fires. *)
Theorem C5_node_delete_uses_old_image :
  forall (db : database) (old : row) (sid : string) (b : bool),
    field "installable" old = Some (VBool b) ->
    field "system_id" old = Some (VText sid) ->
    on_delete registered db "maasserver_node" old
    = Ok [(if b then "node_delete" else "device_delete", sid)].
Proof.
  intros db old sid b Hb Hs.
  run_registered. eval_images.
  rewrite (image_field_some _ _ _ Hb), (image_field_some _ _ _ Hs).
  rewrite holds_bool_literal_True, holds_bool_literal_False.
  destruct b; reflexivity.
Qed.

Lemma C5_node_delete_witness :
  field "installable" [("system_id", VText "abc"); ("installable", VBool false)]
  = Some (VBool false)
  /\ on_delete registered [] "maasserver_node"
       [("system_id", VText "abc"); ("installable", VBool false)]
     = Ok [("device_delete", "abc")].
Proof.
  split; [reflexivity |].
  apply (C5_node_delete_uses_old_image [] _ "abc" false); reflexivity.
Defined.

(** C5 as stated fails on the channel: the delete of the installable
    Node{system_id="abc"} sends [node_delete("abc")], neither
    [node_update("abc")] nor [device_update("abc")]. *)
Lemma C5_node_delete_not_node_update :
  on_delete registered [] "maasserver_node"
    [("system_id", VText "abc"); ("installable", VBool true)]
  = Ok [("node_delete", "abc")]
  /\ on_delete registered [] "maasserver_node"
       [("system_id", VText "abc"); ("installable", VBool true)]
     <> Ok [("node_update", "abc")]
  /\ on_delete registered [] "maasserver_node"
       [("system_id", VText "abc"); ("installable", VBool true)]
     <> Ok [("device_update", "abc")].
Proof.
  assert (E : on_delete registered [] "maasserver_node"
      [("system_id", VText "abc"); ("installable", VBool true)]
    = Ok [("node_delete", "abc")]) by (vm_compute; reflexivity).
  rewrite E. repeat split; discriminate.
Qed.

(** The triggers of a table, evaluated. *)
Ltac eval_triggers :=
  repeat match goal with
  | |- context [triggers_for registered ?tbl ?op] =>
      let r := eval vm_compute in (triggers_for registered tbl op) in
      replace (triggers_for registered tbl op) with r
        by (vm_compute; reflexivity)
  end.

(** C7: on the Node table every operation has exactly two bindings, and
    their WHEN conditions split the rows: for a row whose [installable] is
    the boolean [b], the node binding passes exactly when [b] is true and the
    device binding exactly when [b] is false, so exactly one of them fires.
    Insert and update read the flag off NEW, delete off OLD. *)
Theorem C7_node_filters_exclusive_and_exhaustive :
  forall (r other : row) (b : bool),
    field "installable" r = Some (VBool b) ->
    map (fun t => (tgfoid t, when_holds t (mk_tg None (Some r))))
        (triggers_for registered "maasserver_node" INSERT)
    = [("device_create_notify", Ok (negb b)); ("node_create_notify", Ok b)]
    /\ map (fun t => (tgfoid t, when_holds t (mk_tg (Some other) (Some r))))
           (triggers_for registered "maasserver_node" UPDATE)
       = [("device_update_notify", Ok (negb b)); ("node_update_notify", Ok b)]
    /\ map (fun t => (tgfoid t, when_holds t (mk_tg (Some r) None)))
           (triggers_for registered "maasserver_node" DELETE)
       = [("device_delete_notify", Ok (negb b)); ("node_delete_notify", Ok b)].
Proof.
  intros r other b Hb. eval_triggers.
  cbn [map tgfoid when_holds tgqual]. eval_images.
  rewrite (image_field_some _ _ _ Hb). cbn [bind].
  rewrite holds_bool_literal_True, holds_bool_literal_False.
  repeat split.
Qed.

Lemma C7_node_filters_witness :
  field "installable" [("system_id", VText "abc"); ("installable", VBool true)]
  = Some (VBool true)
  /\ map (fun t => (tgfoid t,
                    when_holds t
                      (mk_tg None
                         (Some [("system_id", VText "abc");
                                ("installable", VBool true)]))))
         (triggers_for registered "maasserver_node" INSERT)
     = [("device_create_notify", Ok false); ("node_create_notify", Ok true)].
Proof.
  split; [reflexivity |].
  apply (C7_node_filters_exclusive_and_exhaustive
           [("system_id", VText "abc"); ("installable", VBool true)] [] true).
  reflexivity.
Defined.

(** ** Keys of a user *)

(** C8: inserting or deleting an SSHKey or SSLKey row sends exactly one
    notification: on [user_update], with the id of the owning user as its
    payload; nothing goes to a node channel. *)
Theorem C8_user_keys_notify_user_update :
  forall (db : database) (tbl : string) (r : row) (uid : Z),
    tbl = "maasserver_sshkey" \/ tbl = "maasserver_sslkey" ->
    field "user_id" r = Some (VInt uid) ->
    on_insert registered db tbl r = Ok [("user_update", text_of_int uid)]
    /\ on_delete registered db tbl r = Ok [("user_update", text_of_int uid)].
Proof.
  intros db tbl r uid [-> | ->] Hu; split;
    run_registered; eval_images;
    rewrite (image_field_some _ _ _ Hu); reflexivity.
Qed.

Lemma C8_user_keys_witness :
  field "user_id" [("id", VInt 3); ("user_id", VInt 42)] = Some (VInt 42)
  /\ on_insert registered [] "maasserver_sshkey"
       [("id", VInt 3); ("user_id", VInt 42)]
     = Ok [("user_update", "42")].
Proof.
  split; [reflexivity |].
  exact (proj1 (C8_user_keys_notify_user_update
                  [] "maasserver_sshkey" [("id", VInt 3); ("user_id", VInt 42)]
                  42 (or_introl eq_refl) eq_refl)).
Defined.

(** ** Looking up the owning node *)

Lemma holds_sql_eq (a b : value) : holds (sql_eq a b) = true -> a = b.
Proof.
  destruct a, b; simpl; try discriminate.
  - destruct (Z.eqb_spec z z0); [now subst | discriminate].
  - destruct (String.eqb_spec s s0); [now subst | discriminate].
  - destruct b, b0; simpl; congruence.
Qed.

Lemma holds_sql_eq_int (z : Z) : holds (sql_eq (VInt z) (VInt z)) = true.
Proof. simpl. now rewrite Z.eqb_refl. Qed.

Lemma holds_sql_and (p q : tv) : holds (sql_and p q) = holds p && holds q.
Proof. destruct p as [[|]|], q as [[|]|]; reflexivity. Qed.

Lemma flat_map_where_none (c : row -> tv) (l : list row) :
  (forall m, In m l -> holds (c m) = false) ->
  flat_map (fun m => where_ (c m) m) l = [].
Proof.
  induction l as [|a l IH]; intros H; simpl; [reflexivity |].
  unfold where_ at 1. rewrite (H a (or_introl eq_refl)). simpl.
  apply IH. intros m Hm. apply H. now right.
Qed.

(** A condition that pins a key column down selects the one row that has
    the key. *)
Lemma flat_map_where_unique (key : row -> value) (c : row -> tv)
  (l : list row) (n : row) :
  NoDup (map key l) ->
  In n l ->
  holds (c n) = true ->
  (forall m, holds (c m) = true -> key m = key n) ->
  flat_map (fun m => where_ (c m) m) l = [n].
Proof.
  intros Hnd Hin Hn Hkey.
  induction l as [|a l IH]; [contradiction |].
  simpl in Hnd. apply NoDup_cons_iff in Hnd as [Hnotin Hnd].
  simpl. destruct Hin as [-> | Hin].
  - unfold where_ at 1. rewrite Hn. simpl. f_equal.
    apply flat_map_where_none. intros m Hm.
    destruct (holds (c m)) eqn:E; [| reflexivity].
    exfalso. apply Hnotin. rewrite <- (Hkey m E). now apply in_map.
  - assert (E : holds (c a) = false).
    { destruct (holds (c a)) eqn:E; [| reflexivity].
      exfalso. apply Hnotin. rewrite (Hkey a E). now apply in_map. }
    unfold where_ at 1. rewrite E. simpl. now apply IH.
Qed.

Lemma select_node_by_id_unique (db : database) (id : Z) (n : row) :
  NoDup (node_ids db) ->
  In n (rows_of db "maasserver_node") ->
  col n "id" = VInt id ->
  select_node_by_id db (VInt id) = Some n.
Proof.
  intros Hnd Hin Hid. unfold select_node_by_id.
  rewrite (flat_map_where_unique (fun m => col m "id")
             (fun m => sql_eq (col m "id") (VInt id)) _ n); auto.
  - rewrite Hid. apply holds_sql_eq_int.
  - intros m Hm. apply holds_sql_eq in Hm. congruence.
Qed.

Lemma notify_node_or_device_some (n : row) (b : bool) :
  col n "installable" = VBool b ->
  notify_node_or_device (Some n)
  = Ok [(if b then "node_update" else "device_update", payload_of n)].
Proof.
  intros Hb. unfold notify_node_or_device, rfield, payload_of, pg_notify.
  rewrite Hb. now destruct b.
Qed.

(** ** MAC addresses *)

(** C10 (as the code has it): an update of a MACAddress row whose
    [node_id] is set before and after notifies the owning node of the new
    image, on [node_update] or [device_update] by that node's flag; when the
    address moved ([OLD.node_id] differs from [NEW.node_id]) the owning node
    of the old image is notified first, by its own flag. *)
Theorem C10_macaddress_update_notifies_old_and_new :
  forall (db : database) (old new n_old n_new : row) (a b : Z)
         (i_old i_new : bool),
    NoDup (node_ids db) ->
    field "node_id" old = Some (VInt a) ->
    field "node_id" new = Some (VInt b) ->
    In n_old (rows_of db "maasserver_node") -> col n_old "id" = VInt a ->
    In n_new (rows_of db "maasserver_node") -> col n_new "id" = VInt b ->
    col n_old "installable" = VBool i_old ->
    col n_new "installable" = VBool i_new ->
    on_update registered db "maasserver_macaddress" old new
    = Ok (if Z.eqb a b
          then [(if i_new then "node_update" else "device_update",
                 payload_of n_new)]
          else [(if i_old then "node_update" else "device_update",
                 payload_of n_old);
                (if i_new then "node_update" else "device_update",
                 payload_of n_new)]).
Proof.
  intros db old new n_old n_new a b i_old i_new
         Hpk Ha Hb Hino Hido Hinn Hidn Hfo Hfn.
  run_registered. eval_images.
  rewrite (image_field_some _ _ _ Ha), (image_field_some _ _ _ Hb).
  rewrite (select_node_by_id_unique db a n_old Hpk Hino Hido).
  rewrite (select_node_by_id_unique db b n_new Hpk Hinn Hidn).
  rewrite (notify_node_or_device_some _ _ Hfo).
  rewrite (notify_node_or_device_some _ _ Hfn).
  unfold sql_neq, sql_eq. destruct (Z.eqb a b); reflexivity.
Qed.

Lemma C10_macaddress_update_witness :
  NoDup (node_ids sample_db)
  /\ field "node_id" [("id", VInt 9); ("node_id", VInt 1)] = Some (VInt 1)
  /\ In sample_node (rows_of sample_db "maasserver_node")
  /\ on_update registered sample_db "maasserver_macaddress"
       [("id", VInt 9); ("node_id", VInt 1)]
       [("id", VInt 9); ("node_id", VInt 2)]
     = Ok [("node_update", "node-1"); ("device_update", "device-2")].
Proof.
  assert (Hpk : NoDup (node_ids sample_db)).
  { repeat constructor; simpl; intuition discriminate. }
  assert (H1 : In sample_node (rows_of sample_db "maasserver_node"))
    by (simpl; auto).
  assert (H2 : In sample_device (rows_of sample_db "maasserver_node"))
    by (simpl; auto).
  split; [exact Hpk | split; [reflexivity | split; [exact H1 |]]].
  exact (C10_macaddress_update_notifies_old_and_new
           sample_db [("id", VInt 9); ("node_id", VInt 1)]
           [("id", VInt 9); ("node_id", VInt 2)]
           sample_node sample_device 1 2 true false
           Hpk eq_refl eq_refl H1 eq_refl H2 eq_refl eq_refl eq_refl).
Defined.

(** C10 as stated fails when the address is detached: [OLD.node_id] is 1
    and [NEW.node_id] is NULL, so the two differ, but the comparison
    [OLD.node_id != NEW.node_id] is unknown and the old owner, node-1, is not
    notified; the lookup of the new owner finds no node and sends
    [device_update] with an empty payload. *)
Lemma C10_macaddress_detached_old_owner_not_notified :
  on_update registered sample_db "maasserver_macaddress"
    [("id", VInt 9); ("node_id", VInt 1)]
    [("id", VInt 9); ("node_id", VNull)]
  = Ok [("device_update", "")]
  /\ VInt 1 <> VNull
  /\ In sample_node (rows_of sample_db "maasserver_node")
  /\ col sample_node "id" = VInt 1
  /\ payload_of sample_node = "node-1".
Proof.
  split; [vm_compute; reflexivity |].
  split; [discriminate |].
  split; [left; reflexivity |].
  split; reflexivity.
Qed.

(** ** Tags *)

Lemma fire_tag_update (db : database) (tg : tg_data) :
  fire registered db "maasserver_tag" UPDATE tg
  = and_then (prosrc TAG_NODES_NOTIFY db tg)
      (and_then
         (prosrc (render_notification_procedure
                    "tag_update_notify" "tag_update" "NEW.id") db tg)
         (Ok [])).
Proof. reflexivity. Qed.

Lemma flat_map_app_perm {A B : Type} (f g : A -> list B) (l : list A) :
  Permutation (flat_map (fun a => f a ++ g a)%list l)
              (flat_map f l ++ flat_map g l).
Proof.
  induction l as [|a l IH]; simpl; [constructor |].
  rewrite IH. rewrite <- !app_assoc. apply Permutation_app_head.
  rewrite !app_assoc. apply Permutation_app_tail.
  apply Permutation_app_comm.
Qed.

(** The rows of a join do not depend, up to their order, on the table that
    is scanned first. *)
Lemma flat_map_swap {A B C : Type} (f : A -> B -> list C)
  (la : list A) (lb : list B) :
  Permutation (flat_map (fun a => flat_map (fun b => f a b) lb) la)
              (flat_map (fun b => flat_map (fun a => f a b) la) lb).
Proof.
  induction la as [|a la IH]; simpl.
  - induction lb as [|b lb IHb]; simpl; [constructor | exact IHb].
  - rewrite flat_map_app_perm. now apply Permutation_app_head.
Qed.

(** The join of the tag procedure, read links first, visits the links of
    the tag and, for each link, the nodes of the link's [node_id]. *)
Lemma tag_join_by_links (db : database) (t : Z) :
  flat_map (fun maasserver_node_tags =>
    flat_map (fun maasserver_node =>
      where_ (sql_and
                (sql_eq (col maasserver_node_tags "tag_id") (VInt t))
                (sql_eq (col maasserver_node_tags "node_id")
                        (col maasserver_node "id")))
             maasserver_node)
    (rows_of db "maasserver_node"))
  (rows_of db "maasserver_node_tags")
  = flat_map (fun l =>
      flat_map (fun n =>
        where_ (sql_eq (col l "node_id") (col n "id")) n)
      (rows_of db "maasserver_node"))
    (tag_links db t).
Proof.
  unfold tag_links.
  induction (rows_of db "maasserver_node_tags") as [|l links IH];
    [reflexivity |].
  simpl. rewrite IH.
  destruct (holds (sql_eq (col l "tag_id") (VInt t))) eqn:E; simpl.
  - f_equal. apply flat_map_ext. intros n. unfold where_.
    now rewrite holds_sql_and, E.
  - rewrite flat_map_where_none; [reflexivity |].
    intros m _. now rewrite holds_sql_and, E.
Qed.

Lemma nodes_of_link (db : database) (l n : row) (id : Z) :
  NoDup (node_ids db) ->
  col l "node_id" = VInt id ->
  In n (rows_of db "maasserver_node") ->
  col n "id" = VInt id ->
  flat_map (fun m => where_ (sql_eq (col l "node_id") (col m "id")) m)
           (rows_of db "maasserver_node")
  = [n].
Proof.
  intros Hpk Hl Hin Hid.
  apply (flat_map_where_unique (fun m => col m "id")); auto.
  - rewrite Hl, Hid. apply holds_sql_eq_int.
  - intros m Hm. apply holds_sql_eq in Hm. congruence.
Qed.

(** C3 (as the code has it): an update of a Tag row whose links are exactly
    two, to the installable node [n1] and to the non-installable node [n2],
    sends exactly three notifications: [node_update] for [n1],
    [device_update] for [n2], and [tag_update] with the tag's id, which the
    second trigger of the table sends. *)
Theorem C3_tag_update_fans_out :
  forall (db : database) (old new l1 l2 n1 n2 : row) (t id1 id2 : Z),
    field "id" new = Some (VInt t) ->
    NoDup (node_ids db) ->
    Permutation (tag_links db t) [l1; l2] ->
    col l1 "node_id" = VInt id1 ->
    col l2 "node_id" = VInt id2 ->
    In n1 (rows_of db "maasserver_node") -> col n1 "id" = VInt id1 ->
    In n2 (rows_of db "maasserver_node") -> col n2 "id" = VInt id2 ->
    col n1 "installable" = VBool true ->
    col n2 "installable" = VBool false ->
    exists ns,
      on_update registered db "maasserver_tag" old new = Ok ns
      /\ Permutation ns [("node_update", payload_of n1);
                         ("device_update", payload_of n2);
                         ("tag_update", text_of_int t)].
Proof.
  intros db old new l1 l2 n1 n2 t id1 id2
         Ht Hpk Hlinks Hl1 Hl2 Hin1 Hid1 Hin2 Hid2 Hf1 Hf2.
  unfold on_update. rewrite fire_tag_update.
  unfold TAG_NODES_NOTIFY, render_notification_procedure. cbn [prosrc].
  eval_images. rewrite (image_field_some _ _ _ Ht). cbn [bind].
  match goal with
  | |- context [for_loop ?r _] => set (rows := r)
  end.
  assert (Hrows : Permutation [n1; n2] rows).
  { unfold rows.
    rewrite (flat_map_swap
               (fun maasserver_node maasserver_node_tags =>
                  where_ (sql_and
                            (sql_eq (col maasserver_node_tags "tag_id")
                                    (VInt t))
                            (sql_eq (col maasserver_node_tags "node_id")
                                    (col maasserver_node "id")))
                         maasserver_node)).
    rewrite tag_join_by_links.
    apply (Permutation_flat_map
             (fun l => flat_map
                         (fun n => where_ (sql_eq (col l "node_id")
                                                  (col n "id")) n)
                         (rows_of db "maasserver_node"))) in Hlinks.
    rewrite Hlinks. cbn [flat_map].
    rewrite (nodes_of_link db l1 n1 id1 Hpk Hl1 Hin1 Hid1),
            (nodes_of_link db l2 n2 id2 Hpk Hl2 Hin2 Hid2).
    apply Permutation_refl. }
  apply Permutation_length_2_inv in Hrows.
  destruct Hrows as [-> | ->];
    cbn [app for_loop];
    rewrite (notify_node_or_device_some _ _ Hf1),
            (notify_node_or_device_some _ _ Hf2);
    eexists; (split; [reflexivity |]); cbn [app].
  - apply Permutation_refl.
  - apply perm_swap.
Qed.

Lemma C3_tag_update_witness :
  field "id" [("id", VInt 7); ("name", VText "gpu")] = Some (VInt 7)
  /\ NoDup (node_ids sample_db)
  /\ exists ns,
       on_update registered sample_db "maasserver_tag"
         [("id", VInt 7); ("name", VText "cpu")]
         [("id", VInt 7); ("name", VText "gpu")] = Ok ns
       /\ Permutation ns [("node_update", "node-1");
                          ("device_update", "device-2");
                          ("tag_update", "7")].
Proof.
  assert (Hpk : NoDup (node_ids sample_db)).
  { repeat constructor; simpl; intuition discriminate. }
  assert (H1 : In sample_node (rows_of sample_db "maasserver_node"))
    by (simpl; auto).
  assert (H2 : In sample_device (rows_of sample_db "maasserver_node"))
    by (simpl; auto).
  split; [reflexivity | split; [exact Hpk |]].
  exact (C3_tag_update_fans_out
           sample_db [("id", VInt 7); ("name", VText "cpu")]
           [("id", VInt 7); ("name", VText "gpu")]
           [("id", VInt 1); ("node_id", VInt 1); ("tag_id", VInt 7)]
           [("id", VInt 2); ("node_id", VInt 2); ("tag_id", VInt 7)]
           sample_node sample_device 7 1 2
           eq_refl Hpk (Permutation_refl _) eq_refl eq_refl
           H1 eq_refl H2 eq_refl eq_refl eq_refl).
Defined.

(** C3 as stated fails on the count: the update of tag 7, linked to the
    machine node-1 and to the device device-2, sends three notifications,
    not two. *)
Lemma C3_tag_update_sends_three :
  on_update registered sample_db "maasserver_tag"
    [("id", VInt 7); ("name", VText "cpu")]
    [("id", VInt 7); ("name", VText "gpu")]
  = Ok [("node_update", "node-1"); ("device_update", "device-2");
        ("tag_update", "7")]
  /\ List.length [("node_update", "node-1"); ("device_update", "device-2");
                  ("tag_update", "7")] <> 2%nat.
Proof.
  split; [vm_compute; reflexivity | discriminate].
Qed.

(** ** Catalogue lists *)

Lemma filter_nil_when {A : Type} (f : A -> bool) (l : list A) :
  (forall y, In y l -> f y = false) -> filter f l = [].
Proof.
  induction l as [|a l IH]; intros H; simpl; [reflexivity |].
  rewrite (H a (or_introl eq_refl)). apply IH. intros y Hy. apply H. now right.
Qed.

Lemma filter_all_when {A : Type} (f : A -> bool) (l : list A) :
  (forall y, In y l -> f y = true) -> filter f l = l.
Proof.
  induction l as [|a l IH]; intros H; simpl; [reflexivity |].
  rewrite (H a (or_introl eq_refl)). f_equal. apply IH.
  intros y Hy. apply H. now right.
Qed.

Lemma filter_twice {A : Type} (f g : A -> bool) (l : list A) :
  filter f (filter g l) = filter (fun y => g y && f y) l.
Proof.
  induction l as [|a l IH]; simpl; [reflexivity |].
  destruct (g a); simpl; [destruct (f a) |]; now rewrite IH.
Qed.

Section PutInstall.

Context {A : Type} (same : A -> A -> bool).
Hypothesis same_refl : forall x, same x x = true.
Hypothesis same_sym : forall x y, same x y = same y x.

Lemma installed_known (xs : list A) (x : A) :
  In x xs -> existsb (fun x0 => same x0 x) xs = true.
Proof.
  intros Hin. apply existsb_exists. exists x. now rewrite same_refl.
Qed.

Lemma existsb_same_sym (xs : list A) (x : A) :
  existsb (fun x0 => same x0 x) xs = existsb (same x) xs.
Proof.
  induction xs as [|a xs IH]; simpl; [reflexivity |].
  now rewrite IH, (same_sym a x).
Qed.

Lemma distinct_filter_same (xs : list A) (x : A) :
  distinctb same xs = true -> In x xs -> filter (same x) xs = [x].
Proof.
  induction xs as [|a xs IH]; intros Hd Hin; [contradiction |].
  simpl in Hd. apply andb_true_iff in Hd as [Ha Hd].
  apply negb_true_iff in Ha. simpl. destruct Hin as [-> | Hin].
  - rewrite same_refl. f_equal. apply filter_nil_when. intros y Hy.
    destruct (same x y) eqn:E; [| reflexivity].
    assert (existsb (same x) xs = true)
      by (apply existsb_exists; now exists y).
    congruence.
  - assert (E : same x a = false).
    { destruct (same x a) eqn:E; [| reflexivity].
      assert (existsb (same a) xs = true).
      { apply existsb_exists. exists x. now rewrite same_sym. }
      congruence. }
    rewrite E. now apply IH.
Qed.

(** Installing distinct objects removes the objects they are identified
    with and appends them in order. *)
Lemma install_spec (xs : list A) :
  distinctb same xs = true ->
  forall l,
    install same xs l
    = (filter (fun y => negb (existsb (fun x => same x y) xs)) l ++ xs)%list.
Proof.
  induction xs as [|x xs IH]; intros Hd l.
  - simpl. rewrite filter_all_when by reflexivity. now rewrite app_nil_r.
  - simpl in Hd. apply andb_true_iff in Hd as [Hx Hd].
    apply negb_true_iff in Hx.
    change (install same (x :: xs) l) with (install same xs (put same x l)).
    rewrite (IH Hd). unfold put. rewrite filter_app, filter_twice. simpl.
    assert (E : existsb (fun x0 => same x0 x) xs = false).
    { rewrite <- Hx. apply existsb_same_sym. }
    rewrite E. simpl. rewrite <- app_assoc. simpl. f_equal.
    apply filter_ext. intros y. now rewrite negb_orb.
Qed.

Lemma install_idempotent (xs l : list A) :
  distinctb same xs = true ->
  install same xs (install same xs l) = install same xs l.
Proof.
  intros Hd. rewrite !(install_spec xs Hd).
  rewrite filter_app, filter_twice.
  rewrite (filter_nil_when _ xs), app_nil_r.
  - f_equal. apply filter_ext. intros y. now rewrite andb_diag.
  - intros y Hy. now rewrite (installed_known xs y Hy).
Qed.

Lemma install_unique (xs l : list A) (x : A) :
  distinctb same xs = true ->
  In x xs ->
  filter (same x) (install same xs l) = [x].
Proof.
  intros Hd Hin. rewrite (install_spec xs Hd), filter_app, filter_twice.
  rewrite (distinct_filter_same xs x Hd Hin).
  rewrite filter_nil_when; [reflexivity |].
  intros y _. destruct (same x y) eqn:E; [| now rewrite andb_false_r].
  assert (existsb (fun x0 => same x0 y) xs = true)
    by (apply existsb_exists; now exists x).
  now rewrite H.
Qed.

Lemma existsb_put_removed (x : A) (l : list A) :
  existsb (same x) (filter (fun y => negb (same x y)) l) = false.
Proof.
  induction l as [|a l IH]; simpl; [reflexivity |].
  destruct (same x a) eqn:E; simpl; [exact IH | now rewrite E].
Qed.

End PutInstall.

Lemma same_proc_refl (p : procedure) : same_proc p p = true.
Proof. apply String.eqb_refl. Qed.

Lemma same_proc_sym (p q : procedure) : same_proc p q = same_proc q p.
Proof. apply String.eqb_sym. Qed.

Lemma same_trig_refl (t : trigger) : same_trig t t = true.
Proof. unfold same_trig, same_trigger. now rewrite !String.eqb_refl. Qed.

Lemma same_trig_sym (t u : trigger) : same_trig t u = same_trig u t.
Proof.
  unfold same_trig, same_trigger.
  now rewrite (String.eqb_sym (tgname u)), (String.eqb_sym (tgrelid u)).
Qed.

(** ** Registration *)

Lemma find_not_none {A : Type} (f : A -> bool) (l : list A) :
  find f l <> None <-> exists x, In x l /\ f x = true.
Proof.
  split.
  - destruct (find f l) as [x|] eqn:E; [| congruence].
    intros _. exists x. now apply find_some in E.
  - intros (x & Hin & Hx) E. now rewrite (find_none f l E x Hin) in Hx.
Qed.

Lemma has_proc_here (name : string) (p : procedure) (l : list procedure) :
  proname p = name ->
  find (fun q => String.eqb (proname q) name) (put same_proc p l) <> None.
Proof.
  intros <-. apply find_not_none. exists p. split.
  - unfold put. apply in_or_app. right. now left.
  - apply String.eqb_refl.
Qed.

Lemma has_proc_later (name : string) (p : procedure) (l : list procedure) :
  find (fun q => String.eqb (proname q) name) l <> None ->
  find (fun q => String.eqb (proname q) name) (put same_proc p l) <> None.
Proof.
  intros H. apply find_not_none in H as (q & Hin & Hq).
  destruct (String.eqb (proname p) name) eqn:E.
  - now apply has_proc_here, String.eqb_eq.
  - apply find_not_none. exists q. split; [| exact Hq].
    unfold put. apply in_or_app. left. apply filter_In. split; [exact Hin |].
    unfold same_proc. apply String.eqb_eq in Hq. rewrite Hq.
    rewrite String.eqb_sym. now rewrite E.
Qed.

Lemma run_register_procedure (p : procedure) (cs : list command)
  (P : list procedure) (T : list trigger) (V : list (string * view_query))
  (r : result pg_catalog) :
  run cs (mk_catalog
            (put same_proc (mk_procedure (identifier (proname p)) (prosrc p))
                 P)
            T V) = r ->
  run (register_procedure p :: cs) (mk_catalog P T V) = r.
Proof. intros H. exact H. Qed.

(** A trigger whose statement parses, whose WHEN clause reads an image of
    its event and whose procedure exists is registered: dropping it first
    makes room for it. *)
Lemma run_register_trigger (table proc event : string)
  (params : option (list (string * bool))) (when : string)
  (timing : string) (events : list tg_op)
  (cs : list command)
  (P : list procedure) (T : list trigger) (V : list (string * view_query))
  (r : result pg_catalog) :
  timing_of (upper when) = Some timing ->
  events_of (upper event) = Some events ->
  check_when events
    match params with
    | Some items => Some (map (fun '(key, value) => (key, py_str value)) items)
    | None => None
    end
  = Ok tt ->
  find (fun q => String.eqb (proname q) (identifier proc)) P <> None ->
  run cs
      (mk_catalog P
         (put same_trig
            (mk_trigger (identifier (table ++ "_" ++ proc))
               (identifier table) timing events
               match params with
               | Some items =>
                   Some (map (fun '(key, value) => (key, py_str value)) items)
               | None => None
               end
               (identifier proc))
            T)
         V)
  = r ->
  run (register_trigger table proc event params when :: cs)
      (mk_catalog P T V)
  = r.
Proof.
  intros Hwhen Hevent Hcheck Hproc <-.
  cbn [run]. unfold register_trigger, drop_trigger_if_exists, create_trigger.
  cbn [bind pg_proc pg_trigger pg_views].
  rewrite Hwhen, Hevent, Hcheck. cbn [bind].
  unfold find_proc. cbn [pg_proc].
  destruct (find (fun p => String.eqb (proname p) (identifier proc)) P);
    [| congruence].
  change (same_trigger (identifier (table ++ "_" ++ proc)) (identifier table))
    with (same_trig (mk_trigger (identifier (table ++ "_" ++ proc))
                       (identifier table) timing events
                       match params with
                       | Some items =>
                           Some (map (fun '(key, value) =>
                                        (key, py_str value)) items)
                       | None => None
                       end
                       (identifier proc))).
  rewrite existsb_put_removed. reflexivity.
Qed.

Ltac has_proc :=
  repeat first [ apply has_proc_here; reflexivity | apply has_proc_later ].

Ltac register_step :=
  lazymatch goal with
  | |- run (register_procedure _ :: _) _ = _ =>
      apply run_register_procedure
  | |- run (register_trigger _ _ _ _ _ :: _) _ = _ =>
      eapply run_register_trigger;
      [ vm_compute; reflexivity | vm_compute; reflexivity
      | reflexivity | has_proc |]
  end.

(** Registration succeeds on every catalogue: it installs the procedures
    and the triggers that it installs on an empty one. *)
Lemma register_all_triggers_spec (cat : pg_catalog) :
  register_all_triggers cat
  = Ok (mk_catalog
          (install same_proc (pg_proc registered) (pg_proc cat))
          (install same_trig (pg_trigger registered) (pg_trigger cat))
          (pg_views cat)).
Proof.
  destruct cat as [P T V]. unfold register_all_triggers.
  repeat register_step.
  cbn [run pg_proc pg_trigger pg_views].
  reflexivity.
Qed.

Lemma registered_procs_distinct :
  distinctb same_proc (pg_proc registered) = true.
Proof. vm_compute. reflexivity. Qed.

Lemma registered_triggers_distinct :
  distinctb same_trig (pg_trigger registered) = true.
Proof. vm_compute. reflexivity. Qed.

(** C6 (as the code has it): registration is idempotent.  On every
    catalogue [register_all_triggers] succeeds, a second call in succession
    leaves the catalogue of the first, and in it every registered trigger is
    the only trigger of its name on its table: one trigger per binding, not
    per (table, operation) pair. *)
Theorem C6_registration_idempotent :
  forall cat : pg_catalog,
  exists cat1 : pg_catalog,
    register_all_triggers cat = Ok cat1
    /\ run [register_all_triggers; register_all_triggers] cat = Ok cat1
    /\ forall t, In t (pg_trigger registered) ->
                 filter (same_trig t) (pg_trigger cat1) = [t].
Proof.
  intros cat. eexists. split; [apply register_all_triggers_spec |]. split.
  - cbn [run]. rewrite register_all_triggers_spec. cbn [bind].
    rewrite register_all_triggers_spec. cbn [bind pg_proc pg_trigger pg_views].
    rewrite (install_idempotent same_proc same_proc_refl same_proc_sym).
    + rewrite (install_idempotent same_trig same_trig_refl same_trig_sym).
      * reflexivity.
      * exact registered_triggers_distinct.
    + exact registered_procs_distinct.
  - intros t Hin. cbn [pg_trigger].
    apply (install_unique same_trig same_trig_refl same_trig_sym);
      [exact registered_triggers_distinct | exact Hin].
Qed.

(** C6 as stated fails on the count: after two registrations on an empty
    catalogue the pair (maasserver_node, insert) has two active triggers. *)
Lemma C6_node_insert_has_two_triggers :
  match run [register_all_triggers; register_all_triggers] empty_catalog with
  | Ok cat2 => map tgname (triggers_for cat2 "maasserver_node" INSERT)
  | SqlError _ => []
  end
  = ["maasserver_node_device_create_notify";
     "maasserver_node_node_create_notify"].
Proof. vm_compute. reflexivity. Qed.

(** ** Views *)

Lemma same_view_refl (v : string * view_query) : same_view v v = true.
Proof. apply String.eqb_refl. Qed.

Lemma same_view_sym (v w : string * view_query) :
  same_view v w = same_view w v.
Proof. apply String.eqb_sym. Qed.

Lemma all_views_distinct : distinctb same_view _ALL_VIEWS = true.
Proof. vm_compute. reflexivity. Qed.

(** The names of [_ALL_VIEWS] are lower-case identifiers of fewer than 64
    bytes: PostgreSQL reads them as they are written. *)
Lemma all_views_identifiers :
  Forall (fun v => identifier (fst v) = fst v) _ALL_VIEWS.
Proof. repeat constructor. Qed.

(** Among the queries of the module the column names decide whether one
    view can replace another: no query generates the first columns of a
    different one. *)
Lemma view_columns_decide (old new : view_query) :
  starts_with (view_columns old) (view_columns new) = true -> old = new.
Proof. destruct old, new; (reflexivity || discriminate). Qed.

Lemma mem_string_In (s : string) (l : list string) :
  mem_string s l = true <-> In s l.
Proof.
  unfold mem_string. rewrite existsb_exists. split.
  - intros (x & Hin & Hx). apply String.eqb_eq in Hx. now subst.
  - intros Hin. exists s. split; [exact Hin | apply String.eqb_refl].
Qed.

Lemma find_app {A : Type} (f : A -> bool) (l1 l2 : list A) :
  find f (l1 ++ l2)
  = match find f l1 with Some x => Some x | None => find f l2 end.
Proof.
  induction l1 as [|a l1 IH]; simpl; [reflexivity |].
  now destruct (f a).
Qed.

Lemma find_filter_none {A : Type} (f g : A -> bool) (l : list A) :
  (forall x, f x = true -> g x = false) ->
  find f (filter g l) = None.
Proof.
  intros H. induction l as [|a l IH]; simpl; [reflexivity |].
  destruct (g a) eqn:Eg; [| exact IH]. simpl.
  destruct (f a) eqn:Ef; [| exact IH]. rewrite (H a Ef) in Eg. discriminate.
Qed.

Lemma find_filter_keep {A : Type} (f g : A -> bool) (l : list A) :
  (forall x, f x = true -> g x = true) ->
  find f (filter g l) = find f l.
Proof.
  intros H. induction l as [|a l IH]; simpl; [reflexivity |].
  destruct (f a) eqn:Ef.
  - rewrite (H a Ef). simpl. now rewrite Ef.
  - destruct (g a); simpl; [now rewrite Ef | exact IH].
Qed.

Lemma check_columns_ok (old new : list string) :
  check_columns old new = Ok tt <-> starts_with old new = true.
Proof.
  unfold check_columns. split.
  - destruct (List.length new <? List.length old)%nat; [discriminate |].
    now destruct (starts_with old new).
  - intros H.
    assert (Hlen : (List.length new <? List.length old)%nat = false).
    { apply Nat.ltb_ge. revert new H.
      induction old as [|o old IH]; intros [|n new] H; simpl in *;
        try lia; try discriminate.
      apply andb_prop in H as [_ H]. specialize (IH _ H). lia. }
    now rewrite Hlen, H.
Qed.

Lemma forallb_same {A : Type} (f g : A -> bool) (l : list A) :
  (forall x, In x l -> f x = g x) -> forallb f l = forallb g l.
Proof.
  induction l as [|a l IH]; intros H; simpl; [reflexivity |].
  rewrite (H a (or_introl eq_refl)), IH; [reflexivity |].
  intros x Hx. apply H. now right.
Qed.

(** A view of another name does not change what a name resolves to. *)
Lemma find_view_put (name : string) (v : string * view_query)
  (views : list (string * view_query)) :
  fst v <> name ->
  find_view name (put same_view v views) = find_view name views.
Proof.
  intros Hne. unfold find_view, put. rewrite find_app.
  rewrite find_filter_keep.
  - destruct (find (fun w => String.eqb (fst w) name) views);
      [reflexivity |].
    simpl. destruct (String.eqb_spec (fst v) name); [contradiction |].
    reflexivity.
  - intros w Hw. apply String.eqb_eq in Hw. unfold same_view.
    rewrite Hw. destruct (String.eqb_spec name (fst v)); [| reflexivity].
    congruence.
Qed.


(** Views that can each be replaced are all installed. *)
Lemma run_register_views (vs : list (string * view_query))
  (P : list procedure) (T : list trigger) :
  distinctb same_view vs = true ->
  Forall (fun v => identifier (fst v) = fst v) vs ->
  forall V : list (string * view_query),
    forallb (fun '(view_name, view_sql) =>
               match find_view view_name V with
               | Some (_, replaced) =>
                   starts_with (view_columns replaced)
                               (view_columns view_sql)
               | None => true
               end) vs = true ->
    run (map (fun '(view_name, view_sql) => _register_view view_name view_sql)
             vs)
        (mk_catalog P T V)
    = Ok (mk_catalog P T (install same_view vs V)).
Proof.
  induction vs as [|[n q] vs IH]; intros Hd Hid V Hok; [reflexivity |].
  cbn [distinctb] in Hd. apply andb_prop in Hd as [Hn Hd].
  apply negb_true_iff in Hn.
  inversion Hid as [|? ? Hidn Hid']; subst. cbn [fst] in Hidn.
  cbn [forallb] in Hok. apply andb_prop in Hok as [Hq Hok].
  cbn [map run]. unfold _register_view at 1, create_or_replace_view.
  cbn [pg_proc pg_trigger pg_views]. rewrite Hidn.
  assert (Hcheck : match find_view n V with
                   | Some (_, replaced) =>
                       check_columns (view_columns replaced) (view_columns q)
                   | None => Ok tt
                   end = Ok tt).
  { destruct (find_view n V) as [[? replaced]|]; [| reflexivity].
    now apply check_columns_ok. }
  rewrite Hcheck. cbn [bind].
  rewrite (IH Hd Hid'); [reflexivity |].
  rewrite forallb_forall in Hok |- *. intros [n' q'] Hin.
  rewrite find_view_put; [exact (Hok _ Hin) |].
  cbn [fst]. intros <-.
  assert (E : existsb (same_view (n, q)) vs = true).
  { apply existsb_exists. exists (n, q'). split; [exact Hin |].
    apply String.eqb_refl. }
  congruence.
Qed.

(** A view that cannot be replaced makes the registration fail. *)
Lemma run_register_views_fails (vs : list (string * view_query))
  (P : list procedure) (T : list trigger) :
  distinctb same_view vs = true ->
  Forall (fun v => identifier (fst v) = fst v) vs ->
  forall V : list (string * view_query),
    forallb (fun '(view_name, view_sql) =>
               match find_view view_name V with
               | Some (_, replaced) =>
                   starts_with (view_columns replaced)
                               (view_columns view_sql)
               | None => true
               end) vs = false ->
    exists msg,
      run (map (fun '(view_name, view_sql) =>
                  _register_view view_name view_sql) vs)
          (mk_catalog P T V)
      = SqlError msg.
Proof.
  induction vs as [|[n q] vs IH]; intros Hd Hid V Hbad; [discriminate |].
  cbn [distinctb] in Hd. apply andb_prop in Hd as [Hn Hd].
  apply negb_true_iff in Hn.
  inversion Hid as [|? ? Hidn Hid']; subst. cbn [fst] in Hidn.
  cbn [forallb] in Hbad.
  cbn [map run]. unfold _register_view at 1, create_or_replace_view.
  cbn [pg_proc pg_trigger pg_views]. rewrite Hidn.
  destruct (find_view n V) as [[? replaced]|] eqn:Ef.
  - destruct (check_columns (view_columns replaced) (view_columns q))
      as [[]|msg] eqn:Ec; cbn [bind]; [| now exists msg].
    apply check_columns_ok in Ec. rewrite Ec in Hbad. cbn [andb] in Hbad.
    apply (IH Hd Hid').
    rewrite <- Hbad. apply forallb_same. intros [n' q'] Hin.
    rewrite find_view_put; [reflexivity |].
    cbn [fst]. intros <-.
    assert (E : existsb (same_view (n, q)) vs = true).
    { apply existsb_exists. exists (n, q'). split; [exact Hin |].
      apply String.eqb_refl. }
    congruence.
  - cbn [bind andb] in *.
    apply (IH Hd Hid').
    rewrite <- Hbad. apply forallb_same. intros [n' q'] Hin.
    rewrite find_view_put; [reflexivity |].
    cbn [fst]. intros <-.
    assert (E : existsb (same_view (n, q)) vs = true).
    { apply existsb_exists. exists (n, q'). split; [exact Hin |].
      apply String.eqb_refl. }
    congruence.
Qed.

Lemma register_all_views_spec (cat : pg_catalog) :
  views_replaceable (pg_views cat) = true ->
  register_all_views cat
  = Ok (mk_catalog (pg_proc cat) (pg_trigger cat)
          (install same_view _ALL_VIEWS (pg_views cat))).
Proof.
  destruct cat as [P T V]. intros H.
  exact (run_register_views _ALL_VIEWS P T all_views_distinct
           all_views_identifiers V H).
Qed.

Lemma run_drop_views (names : list string) :
  Forall (fun name => identifier name = name) names ->
  forall cat : pg_catalog,
    run (map (fun view_name => _drop_view_if_exists view_name) names) cat
    = Ok (mk_catalog (pg_proc cat) (pg_trigger cat)
            (filter (fun v => negb (mem_string (fst v) names))
                    (pg_views cat))).
Proof.
  induction names as [|n names IH]; intros Hid [P T V].
  - cbn [map run pg_proc pg_trigger pg_views].
    now rewrite filter_all_when by reflexivity.
  - inversion Hid as [|? ? Hn Hid']; subst.
    cbn [map run]. unfold _drop_view_if_exists at 1. cbn [bind].
    rewrite (IH Hid'). cbn [pg_proc pg_trigger pg_views]. rewrite Hn.
    rewrite filter_twice. do 2 f_equal. apply filter_ext. intros v.
    unfold mem_string. cbn [existsb]. now rewrite negb_orb.
Qed.

Lemma drop_all_views_spec (cat : pg_catalog) :
  drop_all_views cat
  = Ok (mk_catalog (pg_proc cat) (pg_trigger cat)
          (filter (fun v => negb (mem_string (fst v) (map fst _ALL_VIEWS)))
                  (pg_views cat))).
Proof.
  apply run_drop_views. repeat constructor.
Qed.

(** C9 (as the code has it): the teardown removes the views that the
    registration installs, and nothing else.  On a catalogue where no view
    stands in the way, [register_all_views] installs every view of
    [_ALL_VIEWS]; [drop_all_views] after it leaves no view of one of those
    names, and leaves the procedures and the triggers of the catalogue as
    they were; called again, when the views are already absent, it succeeds
    and changes nothing. *)
Theorem C9_drop_all_views_removes_registered_views :
  forall cat : pg_catalog,
    views_replaceable (pg_views cat) = true ->
    exists cat1 cat2 : pg_catalog,
      register_all_views cat = Ok cat1
      /\ (forall v, In v _ALL_VIEWS -> In v (pg_views cat1))
      /\ drop_all_views cat1 = Ok cat2
      /\ (forall v, In v (pg_views cat2) -> ~ In (fst v) (map fst _ALL_VIEWS))
      /\ pg_proc cat2 = pg_proc cat
      /\ pg_trigger cat2 = pg_trigger cat
      /\ drop_all_views cat2 = Ok cat2.
Proof.
  intros cat Hcat.
  eexists. eexists.
  split; [now apply register_all_views_spec |].
  split.
  { intros v Hv. cbn [pg_views].
    rewrite (install_spec same_view same_view_sym _ all_views_distinct).
    apply in_or_app. now right. }
  split; [apply drop_all_views_spec |].
  cbn [pg_proc pg_trigger pg_views].
  split.
  { intros v Hv. apply filter_In in Hv as [_ Hv].
    apply negb_true_iff in Hv. intros Hin.
    apply mem_string_In in Hin. congruence. }
  split; [reflexivity |]. split; [reflexivity |].
  rewrite drop_all_views_spec. cbn [pg_proc pg_trigger pg_views].
  rewrite filter_twice. do 2 f_equal. apply filter_ext. intros v.
  apply andb_diag.
Qed.

Lemma C9_drop_all_views_witness :
  views_replaceable (pg_views registered) = true
  /\ exists cat1 cat2 : pg_catalog,
       register_all_views registered = Ok cat1
       /\ (forall v, In v _ALL_VIEWS -> In v (pg_views cat1))
       /\ drop_all_views cat1 = Ok cat2
       /\ (forall v, In v (pg_views cat2) ->
                     ~ In (fst v) (map fst _ALL_VIEWS))
       /\ pg_proc cat2 = pg_proc registered
       /\ pg_trigger cat2 = pg_trigger registered
       /\ drop_all_views cat2 = Ok cat2.
Proof.
  split; [reflexivity |].
  exact (C9_drop_all_views_removes_registered_views registered eq_refl).
Defined.

(** C9 as stated fails on the procedures: on a database where the triggers
    and the views are registered, the teardown drops the ten views and
    leaves the 61 trigger procedures, with their triggers, in place. *)
Lemma C9_drop_all_views_keeps_procedures :
  run [register_all_triggers; register_all_views; drop_all_views]
      empty_catalog
  = Ok registered
  /\ pg_views registered = []
  /\ List.length (pg_proc registered) = 61%nat
  /\ List.length (pg_trigger registered) = 61%nat.
Proof.
  split; [vm_compute; reflexivity |].
  split; [reflexivity |]. split; vm_compute; reflexivity.
Qed.

(** ** Storage tables *)

(** C4 (the code at the failing input): the lookups of PartitionTable and
    Partition have no guard.  Deleting a partition table whose block device
    77 is gone, and inserting a partition whose partition table 88 does not
    exist, each send [node_update] with an empty payload; the guarded
    procedures of Filesystem, FilesystemGroup and CacheSet send nothing for
    rows without an owner.  None of the five raises an error. *)
Theorem C4_empty_lookup_on_storage_tables :
  on_delete registered sample_db "maasserver_partitiontable"
    [("id", VInt 9); ("block_device_id", VInt 77)]
  = Ok [("node_update", "")]
  /\ on_insert registered sample_db "maasserver_partition"
       [("id", VInt 3); ("partition_table_id", VInt 88)]
     = Ok [("node_update", "")]
  /\ on_insert registered sample_db "maasserver_filesystem"
       [("id", VInt 4); ("block_device_id", VNull); ("partition_id", VNull)]
     = Ok []
  /\ on_insert registered sample_db "maasserver_filesystemgroup"
       [("id", VInt 6); ("cache_set_id", VNull)]
     = Ok []
  /\ on_insert registered sample_db "maasserver_cacheset" [("id", VInt 8)]
     = Ok [].
Proof. repeat split; vm_compute; reflexivity. Qed.

(** ** Channel routing *)

Lemma and_then_ok (a b : result (list notification)) (ns : list notification) :
  and_then a b = Ok ns ->
  exists x y, a = Ok x /\ b = Ok y /\ ns = (x ++ y)%list.
Proof.
  unfold and_then, bind. destruct a as [x|]; [| discriminate].
  destruct b as [y|]; [| discriminate].
  intros H. inversion H. now exists x, y.
Qed.



Lemma in_insert_by_name (t u : trigger) (ts : list trigger) :
  In u (insert_by_name t ts) -> u = t \/ In u ts.
Proof.
  induction ts as [|a ts IH]; simpl.
  - intros [<- | []]. now left.
  - destruct (String.leb (tgname t) (tgname a)); simpl.
    + intros [<- | [<- | H]]; auto.
    + intros [<- | H]; auto. destruct (IH H); auto.
Qed.

Lemma in_sort_by_name (u : trigger) (ts : list trigger) :
  In u (sort_by_name ts) -> In u ts.
Proof.
  induction ts as [|t ts IH]; simpl; [auto |].
  intros H. apply in_insert_by_name in H as [-> | H]; auto.
Qed.

Lemma in_triggers_for (cat : pg_catalog) (tbl : string) (op : tg_op)
  (t : trigger) :
  In t (triggers_for cat tbl op) ->
  In t (pg_trigger cat) /\ tgrelid t = tbl.
Proof.
  unfold triggers_for. intros H. apply in_sort_by_name, filter_In in H.
  destruct H as [Hin H]. apply andb_true_iff in H as [H _].
  apply andb_true_iff in H as [H _]. apply String.eqb_eq in H. auto.
Qed.


Lemma in_where (c : tv) (r n : row) : In n (where_ c r) -> n = r.
Proof.
  unfold where_. destruct (holds c); simpl; [| contradiction].
  intros [<- | []]. reflexivity.
Qed.

















(** A notification of a mutation comes from one trigger of the table that
    is bound to the operation. *)
Lemma in_triggers_for_op (cat : pg_catalog) (tbl : string) (op : tg_op)
  (t : trigger) :
  In t (triggers_for cat tbl op) -> mem_op op (tgevent t) = true.
Proof.
  unfold triggers_for. intros H. apply in_sort_by_name, filter_In in H.
  destruct H as [Hin H]. apply andb_true_iff in H as [H _].
  now apply andb_true_iff in H as [_ H].
Qed.









(** * Further properties *)

(** ** Tables that notify the id of the changed row *)

(** X1: on the Node table an update sends exactly one notification, routed
    by the flag of the new image alone: [node_update] when the new row is
    installable and [device_update] when it is not, with the new row's
    [system_id]; the old image plays no part. *)
Theorem X1_node_update_routes_by_new_flag :
  forall (db : database) (old new : row) (sid : string) (b : bool),
    field "installable" new = Some (VBool b) ->
    field "system_id" new = Some (VText sid) ->
    on_update registered db "maasserver_node" old new
    = Ok [(if b then "node_update" else "device_update", sid)].
Proof.
  intros db old new sid b Hb Hs.
  run_registered. eval_images.
  rewrite (image_field_some _ _ _ Hb), (image_field_some _ _ _ Hs).
  rewrite holds_bool_literal_True, holds_bool_literal_False.
  destruct b; reflexivity.
Qed.

Lemma X1_node_update_witness :
  field "installable" sample_device = Some (VBool false)
  /\ on_update registered sample_db "maasserver_node"
       sample_node sample_device
     = Ok [("device_update", "device-2")].
Proof.
  split; [reflexivity |].
  exact (X1_node_update_routes_by_new_flag
           sample_db sample_node sample_device "device-2" false
           eq_refl eq_refl).
Defined.

(** X2: NodeGroup, Zone and User rows on every operation, Tag rows on
    insert and delete and Event rows on update and delete send exactly one
    notification: on the channel of the entity and the operation, with the id
    of the changed row (the old row of a delete). *)
Theorem X2_id_bindings_notify_row_id :
  forall (db : database) (tbl channel : string) (op : tg_op)
         (old new : row) (id : Z),
    In (tbl, op, channel) id_bindings ->
    field "id" (changed_row op old new) = Some (VInt id) ->
    fire registered db tbl op (images op old new)
    = Ok [(channel, text_of_int id)].
Proof.
  intros db tbl channel op old new id Hin Hid.
  cbn [id_bindings In] in Hin.
  repeat (destruct Hin as [Hin | Hin];
          [ inversion Hin; subst tbl op channel; clear Hin;
            cbn [changed_row] in Hid; cbn [images];
            run_registered; eval_images;
            rewrite (image_field_some _ _ _ Hid); reflexivity |]).
  contradiction Hin.
Qed.

Lemma X2_id_bindings_witness :
  In ("maasserver_zone", DELETE, "zone_delete") id_bindings
  /\ fire registered sample_db "maasserver_zone" DELETE
       (images DELETE [("id", VInt 12); ("name", VText "default")] [])
     = Ok [("zone_delete", "12")].
Proof.
  assert (Hin : In ("maasserver_zone", DELETE, "zone_delete") id_bindings)
    by (cbn; auto 10).
  split; [exact Hin |].
  exact (X2_id_bindings_notify_row_id
           sample_db "maasserver_zone" "zone_delete" DELETE
           [("id", VInt 12); ("name", VText "default")] [] 12
           Hin eq_refl).
Defined.

(** X3: a NodeGroupInterface row notifies its node group on every
    operation: one notification on [nodegroup_update], with the
    [nodegroup_id] of the changed row. *)
Theorem X3_nodegroupinterface_notifies_nodegroup :
  forall (db : database) (op : tg_op) (old new : row) (id : Z),
    field "nodegroup_id" (changed_row op old new) = Some (VInt id) ->
    fire registered db "maasserver_nodegroupinterface" op (images op old new)
    = Ok [("nodegroup_update", text_of_int id)].
Proof.
  intros db op old new id Hid.
  destruct op; cbn [changed_row] in Hid; cbn [images];
    run_registered; eval_images;
    rewrite (image_field_some _ _ _ Hid); reflexivity.
Qed.

Lemma X3_nodegroupinterface_witness :
  field "nodegroup_id" [("id", VInt 4); ("nodegroup_id", VInt 9)]
  = Some (VInt 9)
  /\ fire registered sample_db "maasserver_nodegroupinterface" INSERT
       (images INSERT [] [("id", VInt 4); ("nodegroup_id", VInt 9)])
     = Ok [("nodegroup_update", "9")].
Proof.
  split; [reflexivity |].
  exact (X3_nodegroupinterface_notifies_nodegroup
           sample_db INSERT [] [("id", VInt 4); ("nodegroup_id", VInt 9)] 9
           eq_refl).
Defined.

(** ** Tables with a foreign key to the Node table *)

Lemma select_node_by_id_none (db : database) (id : value) :
  (forall n, In n (rows_of db "maasserver_node") ->
             holds (sql_eq (col n "id") id) = false) ->
  select_node_by_id db id = None.
Proof.
  intros H. unfold select_node_by_id.
  now rewrite (flat_map_where_none _ _ H).
Qed.

(** X4: a change of a row with a foreign key to the Node table (a tag
    link, a node result, a MAC address, a block device) sends exactly one
    notification, for the node of the row's [node_id]: on [node_update] when
    that node is installable, on [device_update] when it is not. *)
Theorem X4_node_id_bindings_notify_owner :
  forall (db : database) (tbl : string) (op : tg_op) (old new n : row)
         (a : Z) (b : bool),
    In (tbl, op) node_id_bindings ->
    field "node_id" (changed_row op old new) = Some (VInt a) ->
    NoDup (node_ids db) ->
    In n (rows_of db "maasserver_node") ->
    col n "id" = VInt a ->
    col n "installable" = VBool b ->
    fire registered db tbl op (images op old new)
    = Ok [(if b then "node_update" else "device_update", payload_of n)].
Proof.
  intros db tbl op old new n a b Hin Hid Hpk Hn Ha Hb.
  cbn [node_id_bindings In] in Hin.
  repeat (destruct Hin as [Hin | Hin];
          [ inversion Hin; subst tbl op; clear Hin;
            cbn [changed_row] in Hid; cbn [images];
            run_registered; eval_images;
            rewrite (image_field_some _ _ _ Hid);
            rewrite (select_node_by_id_unique db a n Hpk Hn Ha);
            rewrite (notify_node_or_device_some _ _ Hb); reflexivity |]).
  contradiction Hin.
Qed.

Lemma X4_node_id_bindings_witness :
  In ("metadataserver_noderesult", INSERT) node_id_bindings
  /\ NoDup (node_ids sample_db)
  /\ fire registered sample_db "metadataserver_noderesult" INSERT
       (images INSERT [] [("id", VInt 30); ("node_id", VInt 1)])
     = Ok [("node_update", "node-1")].
Proof.
  assert (Hin : In ("metadataserver_noderesult", INSERT) node_id_bindings)
    by (cbn; auto 10).
  assert (Hpk : NoDup (node_ids sample_db)).
  { repeat constructor; simpl; intuition discriminate. }
  split; [exact Hin | split; [exact Hpk |]].
  exact (X4_node_id_bindings_notify_owner
           sample_db "metadataserver_noderesult" INSERT []
           [("id", VInt 30); ("node_id", VInt 1)] sample_node 1 true
           Hin eq_refl Hpk (or_introl eq_refl) eq_refl eq_refl).
Defined.

(** X5: the lookup of these bindings has no guard.  When no row of the
    Node table has the [node_id] of the changed row (a NULL [node_id]
    included), the change still sends one notification: on [device_update],
    with an empty payload. *)
Theorem X5_node_id_bindings_without_owner :
  forall (db : database) (tbl : string) (op : tg_op) (old new : row)
         (v : value),
    In (tbl, op) node_id_bindings ->
    field "node_id" (changed_row op old new) = Some v ->
    (forall n, In n (rows_of db "maasserver_node") ->
               holds (sql_eq (col n "id") v) = false) ->
    fire registered db tbl op (images op old new)
    = Ok [("device_update", "")].
Proof.
  intros db tbl op old new v Hin Hid Hnone.
  cbn [node_id_bindings In] in Hin.
  repeat (destruct Hin as [Hin | Hin];
          [ inversion Hin; subst tbl op; clear Hin;
            cbn [changed_row] in Hid; cbn [images];
            run_registered; eval_images;
            rewrite (image_field_some _ _ _ Hid);
            rewrite (select_node_by_id_none db v Hnone); reflexivity |]).
  contradiction Hin.
Qed.

Lemma X5_node_id_bindings_without_owner_witness :
  In ("maasserver_macaddress", INSERT) node_id_bindings
  /\ fire registered sample_db "maasserver_macaddress" INSERT
       (images INSERT [] [("id", VInt 9); ("node_id", VNull)])
     = Ok [("device_update", "")].
Proof.
  assert (Hin : In ("maasserver_macaddress", INSERT) node_id_bindings)
    by (cbn; auto 10).
  split; [exact Hin |].
  refine (X5_node_id_bindings_without_owner
            sample_db "maasserver_macaddress" INSERT []
            [("id", VInt 9); ("node_id", VNull)] VNull Hin eq_refl _).
  intros n _. now destruct (col n "id").
Defined.

(** X6: the insert of an Event row fires both bindings of the table: the
    owning node is notified by its flag, then [event_create] carries the id
    of the event. *)
Theorem X6_event_insert_notifies_node_and_event :
  forall (db : database) (new n : row) (id a : Z) (b : bool),
    field "id" new = Some (VInt id) ->
    field "node_id" new = Some (VInt a) ->
    NoDup (node_ids db) ->
    In n (rows_of db "maasserver_node") ->
    col n "id" = VInt a ->
    col n "installable" = VBool b ->
    on_insert registered db "maasserver_event" new
    = Ok [(if b then "node_update" else "device_update", payload_of n);
          ("event_create", text_of_int id)].
Proof.
  intros db new n id a b Hid Hnode Hpk Hn Ha Hb.
  run_registered. eval_images.
  rewrite (image_field_some _ _ _ Hid), (image_field_some _ _ _ Hnode).
  rewrite (select_node_by_id_unique db a n Hpk Hn Ha).
  rewrite (notify_node_or_device_some _ _ Hb). reflexivity.
Qed.

Lemma X6_event_insert_witness :
  NoDup (node_ids sample_db)
  /\ on_insert registered sample_db "maasserver_event"
       [("id", VInt 77); ("node_id", VInt 2)]
     = Ok [("device_update", "device-2"); ("event_create", "77")].
Proof.
  assert (Hpk : NoDup (node_ids sample_db)).
  { repeat constructor; simpl; intuition discriminate. }
  split; [exact Hpk |].
  exact (X6_event_insert_notifies_node_and_event
           sample_db [("id", VInt 77); ("node_id", VInt 2)] sample_device
           77 2 false eq_refl eq_refl Hpk (or_intror (or_introl eq_refl))
           eq_refl eq_refl).
Defined.

(** ** Bindings that reach the node through another table *)

Lemma flat_map_nil {A B : Type} (f : A -> list B) (l : list A) :
  (forall x, In x l -> f x = []) -> flat_map f l = [].
Proof.
  induction l as [|a l IH]; intros H; simpl; [reflexivity |].
  rewrite (H a (or_introl eq_refl)). apply IH. intros x Hx. apply H. now right.
Qed.

(** A join condition that pins a key of the joined table down is decided
    by the one row that has the key. *)
Lemma flat_map_join_unique (key : row -> value) (g c : row -> tv)
  (links : list row) (m out : row) :
  NoDup (map key links) ->
  In m links ->
  holds (c m) = true ->
  (forall m', holds (c m') = true -> key m' = key m) ->
  flat_map (fun m' => where_ (sql_and (g m') (c m')) out) links
  = where_ (g m) out.
Proof.
  intros Hnd Hin Hm Hkey.
  induction links as [|a links IH]; [contradiction |].
  simpl in Hnd. apply NoDup_cons_iff in Hnd as [Hnotin Hnd].
  simpl. destruct Hin as [-> | Hin].
  - rewrite flat_map_nil.
    + rewrite app_nil_r. unfold where_.
      now rewrite holds_sql_and, Hm, andb_true_r.
    + intros m' Hm'. unfold where_. rewrite holds_sql_and.
      destruct (holds (c m')) eqn:E; [| now rewrite andb_false_r].
      exfalso. apply Hnotin. rewrite <- (Hkey m' E). now apply in_map.
  - assert (E : holds (c a) = false).
    { destruct (holds (c a)) eqn:E; [| reflexivity].
      exfalso. apply Hnotin. rewrite (Hkey a E). now apply in_map. }
    unfold where_ at 1. rewrite holds_sql_and, E, andb_false_r. simpl.
    now apply IH.
Qed.

(** The join of the Node table with a table that refers to it. *)
Lemma join_node_link (nodes links : list row) (k : string) (x : value)
  (n m : row) (a : Z) :
  NoDup (map (fun r => col r "id") nodes) ->
  NoDup (map (fun r => col r k) links) ->
  In n nodes -> col n "id" = VInt a ->
  In m links -> col m "node_id" = VInt a ->
  col m k = x -> holds (sql_eq x x) = true ->
  flat_map (fun n' =>
    flat_map (fun m' =>
      where_ (sql_and (sql_eq (col n' "id") (col m' "node_id"))
                      (sql_eq (col m' k) x)) n')
    links)
  nodes
  = [n].
Proof.
  intros Hpk Hlk Hn Ha Hm Hma Hk Hx.
  rewrite (flat_map_ext _
             (fun n' => where_ (sql_eq (col n' "id") (col m "node_id")) n')).
  - apply (flat_map_where_unique (fun r => col r "id")); auto.
    + rewrite Ha, Hma. apply holds_sql_eq_int.
    + intros n' Hn'. apply holds_sql_eq in Hn'. congruence.
  - intros n'.
    apply (flat_map_join_unique (fun r => col r k)
             (fun m' => sql_eq (col n' "id") (col m' "node_id"))
             (fun m' => sql_eq (col m' k) x)); auto.
    + now rewrite Hk.
    + intros m' Hm'. apply holds_sql_eq in Hm'. congruence.
Qed.

(** X7: a static IP link, a DHCP lease and a physical or virtual block
    device reach their node through the MAC address or block device they
    refer to.  When that row exists under a unique key and its node exists,
    the change sends exactly one notification, for that node and by its
    flag. *)
Theorem X7_link_bindings_notify_owner :
  forall (db : database) (tbl c lt k : string) (op : tg_op)
         (old new n m : row) (x : value) (a : Z) (b : bool),
    In (tbl, op, (c, lt, k)) link_bindings ->
    field c (changed_row op old new) = Some x ->
    holds (sql_eq x x) = true ->
    NoDup (node_ids db) ->
    NoDup (map (fun r => col r k) (rows_of db lt)) ->
    In m (rows_of db lt) -> col m k = x -> col m "node_id" = VInt a ->
    In n (rows_of db "maasserver_node") -> col n "id" = VInt a ->
    col n "installable" = VBool b ->
    fire registered db tbl op (images op old new)
    = Ok [(if b then "node_update" else "device_update", payload_of n)].
Proof.
  intros db tbl c lt k op old new n m x a b
         Hin Hc Hx Hpk Hlk Hm Hk Hma Hn Ha Hb.
  cbn [link_bindings In] in Hin.
  repeat (destruct Hin as [Hin | Hin];
          [ inversion Hin; subst tbl op c lt k; clear Hin;
            cbn [changed_row] in Hc; cbn [images];
            run_registered; eval_images;
            rewrite (image_field_some _ _ _ Hc);
            rewrite (join_node_link _ _ _ x n m a Hpk Hlk Hn Ha Hm Hma Hk Hx);
            cbn [select_into hd_error];
            rewrite (notify_node_or_device_some _ _ Hb); reflexivity |]).
  contradiction Hin.
Qed.

Lemma X7_link_bindings_witness :
  In ("maasserver_physicalblockdevice", UPDATE,
      ("blockdevice_ptr_id", "maasserver_blockdevice", "id")) link_bindings
  /\ NoDup (node_ids sample_db)
  /\ fire registered sample_db "maasserver_physicalblockdevice" UPDATE
       (images UPDATE [("blockdevice_ptr_id", VInt 5); ("model", VText "a")]
                      [("blockdevice_ptr_id", VInt 5); ("model", VText "b")])
     = Ok [("device_update", "device-2")].
Proof.
  assert (Hin : In ("maasserver_physicalblockdevice", UPDATE,
                    ("blockdevice_ptr_id", "maasserver_blockdevice", "id"))
                   link_bindings) by (cbn; auto 10).
  assert (Hpk : NoDup (node_ids sample_db)).
  { repeat constructor; simpl; intuition discriminate. }
  assert (Hlk : NoDup (map (fun r => col r "id")
                           (rows_of sample_db "maasserver_blockdevice"))).
  { repeat constructor; simpl; intuition discriminate. }
  split; [exact Hin | split; [exact Hpk |]].
  exact (X7_link_bindings_notify_owner
           sample_db "maasserver_physicalblockdevice" "blockdevice_ptr_id"
           "maasserver_blockdevice" "id" UPDATE
           [("blockdevice_ptr_id", VInt 5); ("model", VText "a")]
           [("blockdevice_ptr_id", VInt 5); ("model", VText "b")]
           sample_device [("id", VInt 5); ("node_id", VInt 2)]
           (VInt 5) 2 false
           Hin eq_refl eq_refl Hpk Hlk (or_introl eq_refl) eq_refl eq_refl
           (or_intror (or_introl eq_refl)) eq_refl eq_refl).
Defined.

(** ** Storage tables *)

(** X8: a change of a PartitionTable row whose block device exists under a
    unique id, on a node that exists, sends exactly one notification: on
    [node_update], with the [system_id] of that node, installable or not. *)
Theorem X8_partitiontable_notifies_owner :
  forall (db : database) (op : tg_op) (old new n bd : row) (x a : Z),
    field "block_device_id" (changed_row op old new) = Some (VInt x) ->
    NoDup (node_ids db) ->
    NoDup (map (fun r => col r "id") (rows_of db "maasserver_blockdevice")) ->
    In bd (rows_of db "maasserver_blockdevice") ->
    col bd "id" = VInt x -> col bd "node_id" = VInt a ->
    In n (rows_of db "maasserver_node") -> col n "id" = VInt a ->
    fire registered db "maasserver_partitiontable" op (images op old new)
    = Ok [("node_update", payload_of n)].
Proof.
  intros db op old new n bd x a Hc Hpk Hlk Hbd Hk Hma Hn Ha.
  destruct op; cbn [changed_row] in Hc; cbn [images];
    run_registered; eval_images;
    rewrite (image_field_some _ _ _ Hc);
    rewrite (join_node_link _ _ _ (VInt x) n bd a Hpk Hlk Hn Ha Hbd Hma Hk
               (holds_sql_eq_int x));
    reflexivity.
Qed.

Lemma X8_partitiontable_witness :
  NoDup (node_ids sample_db)
  /\ fire registered sample_db "maasserver_partitiontable" DELETE
       (images DELETE [("id", VInt 9); ("block_device_id", VInt 5)] [])
     = Ok [("node_update", "device-2")].
Proof.
  assert (Hpk : NoDup (node_ids sample_db)).
  { repeat constructor; simpl; intuition discriminate. }
  assert (Hlk : NoDup (map (fun r => col r "id")
                           (rows_of sample_db "maasserver_blockdevice"))).
  { repeat constructor; simpl; intuition discriminate. }
  split; [exact Hpk |].
  exact (X8_partitiontable_notifies_owner
           sample_db DELETE [("id", VInt 9); ("block_device_id", VInt 5)] []
           sample_device [("id", VInt 5); ("node_id", VInt 2)] 5 2
           eq_refl Hpk Hlk (or_introl eq_refl) eq_refl eq_refl
           (or_intror (or_introl eq_refl)) eq_refl).
Defined.

(** The three-table join of the Partition procedure. *)
Lemma join_node_blockdevice_partitiontable
  (nodes bds pts : list row) (x : value) (n bd pt : row) (a d : Z) :
  NoDup (map (fun r => col r "id") nodes) ->
  NoDup (map (fun r => col r "id") bds) ->
  NoDup (map (fun r => col r "id") pts) ->
  In n nodes -> col n "id" = VInt a ->
  In bd bds -> col bd "id" = VInt d -> col bd "node_id" = VInt a ->
  In pt pts -> col pt "id" = x -> col pt "block_device_id" = VInt d ->
  holds (sql_eq x x) = true ->
  flat_map (fun n' =>
    flat_map (fun bd' =>
      flat_map (fun pt' =>
        where_ (sql_and
                  (sql_and (sql_eq (col n' "id") (col bd' "node_id"))
                           (sql_eq (col bd' "id") (col pt' "block_device_id")))
                  (sql_eq (col pt' "id") x)) n')
      pts)
    bds)
  nodes
  = [n].
Proof.
  intros Hpk Hbk Hpt Hn Ha Hbd Hd Hba Hp Hx Hpd Hxx.
  rewrite (flat_map_ext _
             (fun n' => where_ (sql_eq (col n' "id") (col bd "node_id")) n')).
  - apply (flat_map_where_unique (fun r => col r "id")); auto.
    + rewrite Ha, Hba. apply holds_sql_eq_int.
    + intros n' Hn'. apply holds_sql_eq in Hn'. congruence.
  - intros n'.
    rewrite (flat_map_ext _
               (fun bd' =>
                  where_ (sql_and
                            (sql_eq (col n' "id") (col bd' "node_id"))
                            (sql_eq (col bd' "id") (col pt "block_device_id")))
                         n')).
    + apply (flat_map_join_unique (fun r => col r "id")
               (fun bd' => sql_eq (col n' "id") (col bd' "node_id"))
               (fun bd' => sql_eq (col bd' "id") (col pt "block_device_id")));
        auto.
      * rewrite Hd, Hpd. apply holds_sql_eq_int.
      * intros bd' Hbd'. apply holds_sql_eq in Hbd'. congruence.
    + intros bd'.
      apply (flat_map_join_unique (fun r => col r "id")
               (fun pt' =>
                  sql_and (sql_eq (col n' "id") (col bd' "node_id"))
                          (sql_eq (col bd' "id") (col pt' "block_device_id")))
               (fun pt' => sql_eq (col pt' "id") x)); auto.
      * now rewrite Hx.
      * intros pt' Hpt'. apply holds_sql_eq in Hpt'. congruence.
Qed.

(** X9: a change of a Partition row whose partition table, block device
    and node exist, each under a unique id, sends exactly one notification:
    on [node_update], with the [system_id] of the node at the end of the
    chain. *)
Theorem X9_partition_notifies_owner :
  forall (db : database) (op : tg_op) (old new n bd pt : row) (x a d : Z),
    field "partition_table_id" (changed_row op old new) = Some (VInt x) ->
    NoDup (node_ids db) ->
    NoDup (map (fun r => col r "id") (rows_of db "maasserver_blockdevice")) ->
    NoDup (map (fun r => col r "id")
               (rows_of db "maasserver_partitiontable")) ->
    In pt (rows_of db "maasserver_partitiontable") ->
    col pt "id" = VInt x -> col pt "block_device_id" = VInt d ->
    In bd (rows_of db "maasserver_blockdevice") ->
    col bd "id" = VInt d -> col bd "node_id" = VInt a ->
    In n (rows_of db "maasserver_node") -> col n "id" = VInt a ->
    fire registered db "maasserver_partition" op (images op old new)
    = Ok [("node_update", payload_of n)].
Proof.
  intros db op old new n bd pt x a d Hc Hpk Hbk Hptk Hp Hx Hpd Hbd Hd Hba
         Hn Ha.
  destruct op; cbn [changed_row] in Hc; cbn [images];
    run_registered; eval_images;
    rewrite (image_field_some _ _ _ Hc);
    rewrite (join_node_blockdevice_partitiontable _ _ _ (VInt x) n bd pt a d
               Hpk Hbk Hptk Hn Ha Hbd Hd Hba Hp Hx Hpd (holds_sql_eq_int x));
    reflexivity.
Qed.

Lemma X9_partition_witness :
  NoDup (node_ids sample_storage_db)
  /\ fire registered sample_storage_db "maasserver_partition" UPDATE
       (images UPDATE [("id", VInt 8); ("partition_table_id", VInt 7)]
                      [("id", VInt 8); ("partition_table_id", VInt 7)])
     = Ok [("node_update", "node-1")].
Proof.
  assert (Hpk : NoDup (node_ids sample_storage_db)).
  { repeat constructor; simpl; intuition discriminate. }
  assert (Hbk : NoDup (map (fun r => col r "id")
                         (rows_of sample_storage_db "maasserver_blockdevice"))).
  { repeat constructor; simpl; intuition discriminate. }
  assert (Hptk : NoDup (map (fun r => col r "id")
                      (rows_of sample_storage_db "maasserver_partitiontable"))).
  { repeat constructor; simpl; intuition discriminate. }
  split; [exact Hpk |].
  exact (X9_partition_notifies_owner
           sample_storage_db UPDATE
           [("id", VInt 8); ("partition_table_id", VInt 7)]
           [("id", VInt 8); ("partition_table_id", VInt 7)]
           sample_node [("id", VInt 5); ("node_id", VInt 1)]
           [("id", VInt 7); ("block_device_id", VInt 5)] 7 1 5
           eq_refl Hpk Hbk Hptk (or_introl eq_refl) eq_refl eq_refl
           (or_introl eq_refl) eq_refl eq_refl
           (or_intror (or_introl eq_refl)) eq_refl).
Defined.

Lemma holds_sql_or (p q : tv) : holds (sql_or p q) = holds p || holds q.
Proof. destruct p as [[|]|], q as [[|]|]; reflexivity. Qed.

Lemma flat_map_to_nil {A B : Type} (l : list A) :
  flat_map (fun _ : A => @nil B) l = [].
Proof. induction l; simpl; auto. Qed.

(** The query of a procedure, shown empty. *)
Ltac empty_lookup tac :=
  match goal with
  | |- context [select_into ?q] =>
      let Hq := fresh "Hq" in
      assert (Hq : q = []) by tac;
      rewrite Hq
  end.

(** X10: the Filesystem lookup lists the Partition and PartitionTable
    tables in its FROM clause without joining them on the block-device path.
    When either table is empty the lookup returns no row, so the change of a
    filesystem sends nothing, also for a filesystem that sits on a block
    device of an existing node. *)
Theorem X10_filesystem_silent_without_partitions :
  forall (db : database) (op : tg_op) (old new : row) (v1 v2 : value),
    rows_of db "maasserver_partition" = []
    \/ rows_of db "maasserver_partitiontable" = [] ->
    field "block_device_id" (changed_row op old new) = Some v1 ->
    field "partition_id" (changed_row op old new) = Some v2 ->
    fire registered db "maasserver_filesystem" op (images op old new) = Ok [].
Proof.
  intros db op old new v1 v2 Hempty H1 H2.
  destruct op; cbn [changed_row] in H1, H2; cbn [images];
    run_registered; eval_images;
    rewrite (image_field_some _ _ _ H1), (image_field_some _ _ _ H2);
    (empty_lookup
       ltac:(destruct Hempty as [-> | ->]; cbn [flat_map];
             repeat (apply flat_map_nil; intros ? _);
             try apply flat_map_to_nil; reflexivity));
    reflexivity.
Qed.

Lemma X10_filesystem_witness :
  rows_of sample_db "maasserver_partition" = []
  /\ In [("id", VInt 5); ("node_id", VInt 2)]
        (rows_of sample_db "maasserver_blockdevice")
  /\ fire registered sample_db "maasserver_filesystem" INSERT
       (images INSERT []
          [("id", VInt 3); ("block_device_id", VInt 5);
           ("partition_id", VNull)])
     = Ok [].
Proof.
  split; [reflexivity | split; [left; reflexivity |]].
  exact (X10_filesystem_silent_without_partitions
           sample_db INSERT []
           [("id", VInt 3); ("block_device_id", VInt 5);
            ("partition_id", VNull)]
           (VInt 5) VNull (or_introl eq_refl) eq_refl eq_refl).
Defined.

Lemma select_into_head (l tl : list row) (n0 : row) :
  In n0 l -> (forall y, In y l -> y = n0) ->
  select_into (l ++ tl) = Some n0.
Proof.
  destruct l as [|y l]; [contradiction |]. intros _ H. simpl.
  now rewrite (H y (or_introl eq_refl)).
Qed.

(** X11: on its partition path the Filesystem lookup does not join the
    Node table (AND binds tighter than OR in its WHERE clause).  When the
    partition of the changed filesystem has its partition table and block
    device, every node pairs with them: the record is the first row of the
    Node table, and the notification carries the [system_id] of that row,
    whichever node owns the block device. *)
Theorem X11_filesystem_partition_path_takes_first_node :
  forall (db : database) (op : tg_op) (old new n0 bd p pt : row)
         (rest : list row) (v1 x : value) (s : string),
    field "block_device_id" (changed_row op old new) = Some v1 ->
    field "partition_id" (changed_row op old new) = Some x ->
    In p (rows_of db "maasserver_partition") ->
    holds (sql_eq (col p "id") x) = true ->
    In pt (rows_of db "maasserver_partitiontable") ->
    holds (sql_eq (col pt "id") (col p "partition_table_id")) = true ->
    In bd (rows_of db "maasserver_blockdevice") ->
    holds (sql_eq (col bd "id") (col pt "block_device_id")) = true ->
    rows_of db "maasserver_node" = n0 :: rest ->
    col n0 "system_id" = VText s -> s <> "" ->
    fire registered db "maasserver_filesystem" op (images op old new)
    = Ok [("node_update", s)].
Proof.
  intros db op old new n0 bd p pt rest v1 x s
         H1 H2 Hp Hpx Hpt Hptp Hbd Hbdpt Hnodes Hs Hne.
  assert (Hguard : holds (sql_neq (VText s) (VText "")) = true).
  { simpl. destruct (String.eqb_spec s ""); [contradiction | reflexivity]. }
  destruct op; cbn [changed_row] in H1, H2; cbn [images];
    run_registered; eval_images;
    rewrite (image_field_some _ _ _ H1), (image_field_some _ _ _ H2);
    rewrite Hnodes; cbn [flat_map];
    (rewrite (select_into_head _ _ n0);
     [ cbn [rfield]; rewrite Hs, Hguard; reflexivity
     | apply in_flat_map; exists bd; split; [exact Hbd |];
       apply in_flat_map; exists p; split; [exact Hp |];
       apply in_flat_map; exists pt; split; [exact Hpt |];
       unfold where_;
       rewrite holds_sql_or, !holds_sql_and, Hbdpt, Hptp, Hpx, orb_true_r;
       now left
     | intros y Hy;
       repeat (apply in_flat_map in Hy as (? & ? & Hy));
       now apply in_where in Hy ]).
Qed.

Lemma X11_filesystem_partition_path_witness :
  rows_of sample_storage_db "maasserver_node" = [sample_device; sample_node]
  /\ In [("id", VInt 5); ("node_id", VInt 1)]
        (rows_of sample_storage_db "maasserver_blockdevice")
  /\ fire registered sample_storage_db "maasserver_filesystem" UPDATE
       (images UPDATE []
          [("id", VInt 3); ("block_device_id", VNull);
           ("partition_id", VInt 8)])
     = Ok [("node_update", "device-2")].
Proof.
  split; [reflexivity | split; [left; reflexivity |]].
  refine (X11_filesystem_partition_path_takes_first_node
            sample_storage_db UPDATE []
            [("id", VInt 3); ("block_device_id", VNull);
             ("partition_id", VInt 8)]
            sample_device [("id", VInt 5); ("node_id", VInt 1)]
            [("id", VInt 8); ("partition_table_id", VInt 7)]
            [("id", VInt 7); ("block_device_id", VInt 5)]
            [sample_node] VNull (VInt 8) "device-2"
            eq_refl eq_refl (or_introl eq_refl) eq_refl
            (or_introl eq_refl) eq_refl (or_introl eq_refl) eq_refl
            eq_refl eq_refl _).
  discriminate.
Defined.

(** X12: the CacheSet lookup is guarded.  When no filesystem refers to the
    changed cache set the lookup returns no row and nothing is sent. *)
Theorem X12_cacheset_without_filesystem_is_silent :
  forall (db : database) (op : tg_op) (old new : row) (v : value),
    field "id" (changed_row op old new) = Some v ->
    (forall fs, In fs (rows_of db "maasserver_filesystem") ->
                holds (sql_eq (col fs "cache_set_id") v) = false) ->
    fire registered db "maasserver_cacheset" op (images op old new) = Ok [].
Proof.
  intros db op old new v Hid Hnone.
  destruct op; cbn [changed_row] in Hid; cbn [images];
    run_registered; eval_images;
    rewrite (image_field_some _ _ _ Hid);
    (empty_lookup
       ltac:(do 4 (apply flat_map_nil; intros ? _);
             apply flat_map_nil; intros fs Hfs; unfold where_;
             now rewrite !holds_sql_and, (Hnone fs Hfs), andb_false_r));
    reflexivity.
Qed.

Lemma X12_cacheset_witness :
  field "id" [("id", VInt 4)] = Some (VInt 4)
  /\ fire registered sample_storage_db "maasserver_cacheset" INSERT
       (images INSERT [] [("id", VInt 4)])
     = Ok [].
Proof.
  split; [reflexivity |].
  refine (X12_cacheset_without_filesystem_is_silent
            sample_storage_db INSERT [] [("id", VInt 4)] (VInt 4) eq_refl _).
  intros fs [<- | []]. reflexivity.
Defined.

(** X13: the FilesystemGroup lookup is guarded.  When no filesystem refers
    to the changed group, nor to the cache set of the group, the lookup
    returns no row and nothing is sent: so for a group that has just been
    created. *)
Theorem X13_filesystemgroup_without_filesystem_is_silent :
  forall (db : database) (op : tg_op) (old new : row) (g c : value),
    field "id" (changed_row op old new) = Some g ->
    field "cache_set_id" (changed_row op old new) = Some c ->
    (forall fs, In fs (rows_of db "maasserver_filesystem") ->
                holds (sql_eq (col fs "filesystem_group_id") g) = false
                /\ holds (sql_eq (col fs "cache_set_id") c) = false) ->
    fire registered db "maasserver_filesystemgroup" op (images op old new)
    = Ok [].
Proof.
  intros db op old new g c Hg Hc Hnone.
  destruct op; cbn [changed_row] in Hg, Hc; cbn [images];
    run_registered; eval_images;
    rewrite (image_field_some _ _ _ Hg), (image_field_some _ _ _ Hc);
    (empty_lookup
       ltac:(do 4 (apply flat_map_nil; intros ? _);
             apply flat_map_nil; intros fs Hfs; unfold where_;
             destruct (Hnone fs Hfs) as [E1 E2];
             now rewrite !holds_sql_and, holds_sql_or, E1, E2,
                         andb_false_r));
    reflexivity.
Qed.

Lemma X13_filesystemgroup_witness :
  field "id" [("id", VInt 11); ("cache_set_id", VNull)] = Some (VInt 11)
  /\ fire registered sample_storage_db "maasserver_filesystemgroup" INSERT
       (images INSERT [] [("id", VInt 11); ("cache_set_id", VNull)])
     = Ok [].
Proof.
  split; [reflexivity |].
  refine (X13_filesystemgroup_without_filesystem_is_silent
            sample_storage_db INSERT [] [("id", VInt 11); ("cache_set_id", VNull)]
            (VInt 11) VNull eq_refl eq_refl _).
  intros fs [<- | []]. split; reflexivity.
Defined.

(** ** Registration on a catalogue that is not empty *)

(** X17: [register_all_triggers] adds and replaces, and removes nothing
    else.  On every catalogue it installs each of its procedures and
    triggers, keeps every trigger that does not have both the name and the
    table of one of its own, keeps every procedure of another name, and leaves
    the views as they are; it has no step that drops a trigger it no longer
    registers. *)
Theorem X17_register_all_triggers_keeps_foreign_objects :
  forall cat : pg_catalog,
  exists cat1 : pg_catalog,
    register_all_triggers cat = Ok cat1
    /\ pg_views cat1 = pg_views cat
    /\ (forall t, In t (pg_trigger registered) -> In t (pg_trigger cat1))
    /\ (forall p, In p (pg_proc registered) -> In p (pg_proc cat1))
    /\ (forall u, In u (pg_trigger cat) ->
                  existsb (fun t => same_trig t u) (pg_trigger registered)
                  = false ->
                  In u (pg_trigger cat1))
    /\ (forall q, In q (pg_proc cat) ->
                  existsb (fun p => same_proc p q) (pg_proc registered)
                  = false ->
                  In q (pg_proc cat1)).
Proof.
  intros cat. eexists. split; [apply register_all_triggers_spec |].
  cbn [pg_proc pg_trigger pg_views].
  rewrite (install_spec same_trig same_trig_sym _
             registered_triggers_distinct).
  rewrite (install_spec same_proc same_proc_sym _ registered_procs_distinct).
  split; [reflexivity |].
  split; [intros t Ht; apply in_or_app; now right |].
  split; [intros p Hp; apply in_or_app; now right |].
  split.
  - intros u Hu E. apply in_or_app. left. apply filter_In.
    split; [exact Hu | now rewrite E].
  - intros q Hq E. apply in_or_app. left. apply filter_In.
    split; [exact Hq | now rewrite E].
Qed.

Lemma triggers_for_ext (cat cat' : pg_catalog) (tbl : string) (op : tg_op) :
  pg_trigger cat = pg_trigger cat' ->
  triggers_for cat tbl op = triggers_for cat' tbl op.
Proof. intros H. unfold triggers_for. now rewrite H. Qed.

Lemma fire_all_ext (cat cat' : pg_catalog) (db : database) (tg1 tg2 : tg_data)
  (ts : list trigger) :
  (forall t, In t ts ->
             fire_trigger cat db tg1 t = fire_trigger cat' db tg2 t) ->
  fire_all cat db tg1 ts = fire_all cat' db tg2 ts.
Proof.
  induction ts as [|t ts IH]; intros H; simpl; [reflexivity |].
  rewrite (H t (or_introl eq_refl)), IH; [reflexivity |].
  intros u Hu. apply H. now right.
Qed.

Lemma in_triggers_for_event (cat : pg_catalog) (tbl : string) (op : tg_op)
  (t : trigger) :
  In t (triggers_for cat tbl op) ->
  In t (pg_trigger cat) /\ mem_op op (tgevent t) = true.
Proof.
  intros H. split.
  - now apply in_triggers_for in H.
  - now apply in_triggers_for_op in H.
Qed.

(** Two catalogues with the same triggers, which resolve the procedures of
    those triggers alike, send the same notifications. *)
Lemma fire_ext (cat cat' : pg_catalog) :
  pg_trigger cat = pg_trigger cat' ->
  (forall t, In t (pg_trigger cat') ->
             find_proc (tgfoid t) cat = find_proc (tgfoid t) cat') ->
  forall db tbl op tg, fire cat db tbl op tg = fire cat' db tbl op tg.
Proof.
  intros Ht Hp db tbl op tg. unfold fire.
  rewrite (triggers_for_ext cat cat' tbl op Ht).
  apply fire_all_ext. intros t Hin.
  apply in_triggers_for_event in Hin as [Hin _].
  unfold fire_trigger. now rewrite (Hp t Hin).
Qed.

Lemma registered_triggers_call_registered_procs :
  forallb (fun t => existsb (fun p => String.eqb (proname p) (tgfoid t))
                            (pg_proc registered))
          (pg_trigger registered) = true.
Proof. vm_compute. reflexivity. Qed.

(** X18: on a catalogue whose triggers all go by registered names (a new
    database, or one that was registered before) [register_all_triggers]
    leaves a catalogue that notifies every mutation as the catalogue of an
    empty database does, whatever procedures and views were there. *)
Theorem X18_registration_notifies_alike_on_any_catalogue :
  forall cat : pg_catalog,
    (forall u, In u (pg_trigger cat) ->
               existsb (fun t => same_trig t u) (pg_trigger registered)
               = true) ->
    exists cat1 : pg_catalog,
      register_all_triggers cat = Ok cat1
      /\ forall db tbl op tg,
           fire cat1 db tbl op tg = fire registered db tbl op tg.
Proof.
  intros cat Hknown. eexists. split; [apply register_all_triggers_spec |].
  apply fire_ext; cbn [pg_proc pg_trigger pg_views].
  - rewrite (install_spec same_trig same_trig_sym _
               registered_triggers_distinct).
    rewrite filter_nil_when; [reflexivity |].
    intros u Hu. now rewrite (Hknown u Hu).
  - intros t Ht. unfold find_proc. cbn [pg_proc].
    rewrite (install_spec same_proc same_proc_sym _
               registered_procs_distinct).
    rewrite find_app, find_filter_none; [reflexivity |].
    intros q Hq. apply String.eqb_eq in Hq.
    pose proof registered_triggers_call_registered_procs as Hall.
    rewrite forallb_forall in Hall. specialize (Hall t Ht).
    apply existsb_exists in Hall as (p & Hp & Hname).
    apply negb_false_iff, existsb_exists. exists p. split; [exact Hp |].
    unfold same_proc. apply String.eqb_eq in Hname.
    rewrite Hq, Hname. apply String.eqb_refl.
Qed.

Lemma X18_registration_witness :
  (forall u, In u (pg_trigger sample_catalog) ->
             existsb (fun t => same_trig t u) (pg_trigger registered) = true)
  /\ exists cat1 : pg_catalog,
       register_all_triggers sample_catalog = Ok cat1
       /\ forall db tbl op tg,
            fire cat1 db tbl op tg = fire registered db tbl op tg.
Proof.
  assert (H : forall u, In u (pg_trigger sample_catalog) ->
                existsb (fun t => same_trig t u) (pg_trigger registered)
                = true).
  { intros u [<- | []]. vm_compute. reflexivity. }
  split; [exact H |].
  exact (X18_registration_notifies_alike_on_any_catalogue sample_catalog H).
Defined.

(** ** Row images *)

(** X19: the registered triggers read only the image that the operation
    provides.  The notifications of an insert do not depend on what [OLD]
    holds, nor those of a delete on what [NEW] holds: no binding pairs an
    insert with an [OLD.] expression or a delete with a [NEW.] one, so none
    fails on an unassigned record. *)
Theorem X19_triggers_read_the_image_of_their_operation :
  forall (db : database) (tbl : string) (r : row) (any1 any2 : option row),
    fire registered db tbl INSERT (mk_tg any1 (Some r))
    = fire registered db tbl INSERT (mk_tg any2 (Some r))
    /\ fire registered db tbl DELETE (mk_tg (Some r) any1)
       = fire registered db tbl DELETE (mk_tg (Some r) any2).
Proof.
  intros db tbl r any1 any2. unfold fire. split.
  - apply fire_all_ext. intros t Ht.
    apply in_triggers_for_event in Ht as [Ht Hev].
    let l := eval vm_compute in (pg_trigger registered) in
    replace (pg_trigger registered) with l in Ht by (vm_compute; reflexivity).
    cbn [In] in Ht.
    repeat (destruct Ht as [<- | Ht]);
      [ first [ discriminate Hev
              | lazy -[eval_expr image_field select_node_by_id
                       notify_node_or_device pg_notify select_into flat_map
                       rows_of for_loop and_then rfield col field cast_text
                       holds sql_eq sql_neq sql_and sql_or as_cond where_
                       sql_eq_literal text_or_empty text_of_int row table
                       database notification tv];
                rewrite !eval_expr_NEW; reflexivity ] .. | contradiction Ht ].
  - apply fire_all_ext. intros t Ht.
    apply in_triggers_for_event in Ht as [Ht Hev].
    let l := eval vm_compute in (pg_trigger registered) in
    replace (pg_trigger registered) with l in Ht by (vm_compute; reflexivity).
    cbn [In] in Ht.
    repeat (destruct Ht as [<- | Ht]);
      [ first [ discriminate Hev
              | lazy -[eval_expr image_field select_node_by_id
                       notify_node_or_device pg_notify select_into flat_map
                       rows_of for_loop and_then rfield col field cast_text
                       holds sql_eq sql_neq sql_and sql_or as_cond where_
                       sql_eq_literal text_or_empty text_of_int row table
                       database notification tv];
                rewrite !eval_expr_OLD; reflexivity ] .. | contradiction Ht ].
Qed.

(** ** Views *)

Lemma find_view_in (name : string) (q : view_query) :
  In (name, q) _ALL_VIEWS ->
  find (fun v => String.eqb (fst v) name) _ALL_VIEWS = Some (name, q).
Proof.
  intros Hin. cbn [_ALL_VIEWS In] in Hin.
  repeat (destruct Hin as [Hin | Hin];
          [inversion Hin; subst; reflexivity |]).
  contradiction Hin.
Qed.

Lemma find_view_none (name : string) :
  ~ In name (map fst _ALL_VIEWS) ->
  find (fun v => String.eqb (fst v) name) _ALL_VIEWS = None.
Proof.
  intros Hnot.
  destruct (find (fun v => String.eqb (fst v) name) _ALL_VIEWS)
    as [v|] eqn:E; [| reflexivity].
  apply find_some in E as [Hin Hv]. apply String.eqb_eq in Hv. subst name.
  exfalso. apply Hnot. now apply in_map.
Qed.

Lemma view_name_identifier (name : string) (q : view_query) :
  In (name, q) _ALL_VIEWS -> identifier name = name.
Proof.
  intros Hin. pose proof all_views_identifiers as H.
  rewrite Forall_forall in H. exact (H _ Hin).
Qed.

Lemma in_put {A : Type} (same : A -> A -> bool) (x y : A) (l : list A) :
  same x x = true -> same x y = false ->
  (In y (put same x l) <-> In y l).
Proof.
  intros Hrefl E. unfold put. rewrite in_app_iff, filter_In. split.
  - intros [[H _] | [<- | []]]; [exact H | congruence].
  - intros H. left. split; [exact H | now rewrite E].
Qed.

Lemma filter_same_put {A : Type} (same : A -> A -> bool) (x : A)
  (l : list A) :
  same x x = true -> filter (same x) (put same x l) = [x].
Proof.
  intros Hrefl. unfold put. rewrite filter_app, filter_twice.
  rewrite filter_nil_when.
  - simpl. now rewrite Hrefl.
  - intros y _. now destruct (same x y).
Qed.

(** X20: [register_view] looks the name up in [_ALL_VIEWS].  A name that is
    not a key raises (KeyError).  For a key, the outcome depends on the view
    that goes by the name in the catalogue: when that view has other columns
    than the first columns of the dictionary's query, the call raises; when
    there is no such view, or its columns fit, the view is installed with
    the query of the dictionary, as the only view of the name, and every
    view of another name, every procedure and every trigger is left as it
    was. *)
Theorem X20_register_view_by_name :
  forall (view_name : string) (cat : pg_catalog),
    (~ In view_name (map fst _ALL_VIEWS) ->
     register_view view_name cat = SqlError "KeyError")
    /\ (forall view_sql,
          In (view_name, view_sql) _ALL_VIEWS ->
          (forall name replaced,
             find_view view_name (pg_views cat) = Some (name, replaced) ->
             starts_with (view_columns replaced) (view_columns view_sql)
             = false ->
             exists msg, register_view view_name cat = SqlError msg)
          /\ ((forall name replaced,
                 find_view view_name (pg_views cat) = Some (name, replaced) ->
                 starts_with (view_columns replaced) (view_columns view_sql)
                 = true) ->
              exists cat',
                register_view view_name cat = Ok cat'
                /\ filter (fun v => String.eqb (fst v) view_name)
                          (pg_views cat')
                   = [(view_name, view_sql)]
                /\ (forall w, fst w <> view_name ->
                              (In w (pg_views cat') <-> In w (pg_views cat)))
                /\ pg_proc cat' = pg_proc cat
                /\ pg_trigger cat' = pg_trigger cat)).
Proof.
  intros view_name cat. split.
  - intros Hnot. unfold register_view. now rewrite (find_view_none _ Hnot).
  - intros view_sql Hin. unfold register_view.
    rewrite (find_view_in _ _ Hin).
    unfold _register_view, create_or_replace_view.
    rewrite (view_name_identifier _ _ Hin). split.
    + intros name replaced Hfind Hbad. rewrite Hfind.
      destruct (check_columns (view_columns replaced)
                              (view_columns view_sql)) as [[]|msg] eqn:Ec.
      * apply check_columns_ok in Ec. congruence.
      * now exists msg.
    + intros Hok.
      assert (Hcheck : match find_view view_name (pg_views cat) with
                       | Some (_, replaced) =>
                           check_columns (view_columns replaced)
                                         (view_columns view_sql)
                       | None => Ok tt
                       end = Ok tt).
      { destruct (find_view view_name (pg_views cat)) as [[name replaced]|]
          eqn:Ef; [| reflexivity].
        apply check_columns_ok. exact (Hok name replaced eq_refl). }
      rewrite Hcheck. cbn [bind]. eexists. split; [reflexivity |].
      cbn [pg_proc pg_trigger pg_views].
      split; [| split; [| split; reflexivity]].
      * exact (filter_same_put same_view (view_name, view_sql) _
                 (same_view_refl _)).
      * intros w Hw.
        apply (in_put same_view (view_name, view_sql) w _
                 (same_view_refl _)).
        unfold same_view. cbn [fst].
        destruct (String.eqb_spec (fst w) view_name); [contradiction |].
        reflexivity.
Qed.

Lemma X20_register_view_witness :
  In ("maas_support__node_overview", maas_support__node_overview) _ALL_VIEWS
  /\ find_view "maas_support__node_overview"
       [("maas_support__node_overview", maasserver_discovery)]
     = Some ("maas_support__node_overview", maasserver_discovery)
  /\ exists msg,
       register_view "maas_support__node_overview"
         (mk_catalog [] []
            [("maas_support__node_overview", maasserver_discovery)])
       = SqlError msg.
Proof.
  assert (Hin : In ("maas_support__node_overview",
                    maas_support__node_overview) _ALL_VIEWS)
    by (cbn; auto).
  split; [exact Hin |]. split; [reflexivity |].
  exact (proj1 (proj2 (X20_register_view_by_name
                         "maas_support__node_overview"
                         (mk_catalog [] []
                            [("maas_support__node_overview",
                              maasserver_discovery)]))
                      maas_support__node_overview Hin)
               "maas_support__node_overview" maasserver_discovery
               eq_refl eq_refl).
Defined.

Lemma not_key_not_same (w : string * view_query) :
  ~ In (fst w) (map fst _ALL_VIEWS) ->
  existsb (fun x => same_view x w) _ALL_VIEWS = false.
Proof.
  intros Hw.
  destruct (existsb (fun x => same_view x w) _ALL_VIEWS) eqn:E;
    [| reflexivity].
  apply existsb_exists in E as (v & Hv & Hsame).
  unfold same_view in Hsame. apply String.eqb_eq in Hsame.
  exfalso. apply Hw. rewrite Hsame. now apply in_map.
Qed.

(** X21: [drop_all_views] and [register_all_views] touch only the views of
    [_ALL_VIEWS].  The teardown succeeds, and so does the registration on a
    catalogue where no view stands in its way; after either, a view whose
    name is not a key of the dictionary is there exactly when it was there
    before. *)
Theorem X21_views_of_other_names_are_kept :
  forall cat : pg_catalog,
    (exists cat_d : pg_catalog,
       drop_all_views cat = Ok cat_d
       /\ forall w, ~ In (fst w) (map fst _ALL_VIEWS) ->
                    (In w (pg_views cat_d) <-> In w (pg_views cat)))
    /\ (views_replaceable (pg_views cat) = true ->
        exists cat_r : pg_catalog,
          register_all_views cat = Ok cat_r
          /\ forall w, ~ In (fst w) (map fst _ALL_VIEWS) ->
                       (In w (pg_views cat_r) <-> In w (pg_views cat))).
Proof.
  intros cat. split.
  - eexists. split; [apply drop_all_views_spec |].
    intros w Hw. cbn [pg_views].
    assert (Hmem : mem_string (fst w) (map fst _ALL_VIEWS) = false).
    { destruct (mem_string (fst w) (map fst _ALL_VIEWS)) eqn:E;
        [| reflexivity].
      apply mem_string_In in E. contradiction. }
    rewrite filter_In, Hmem. cbn [negb]. tauto.
  - intros Hcat. eexists. split; [now apply register_all_views_spec |].
    intros w Hw. cbn [pg_views].
    rewrite (install_spec same_view same_view_sym _ all_views_distinct).
    rewrite in_app_iff, filter_In. split.
    + intros [[H _] | H]; [exact H |]. exfalso. apply Hw. now apply in_map.
    + intros H. left. split; [exact H |].
      now rewrite (not_key_not_same w Hw).
Qed.

Lemma X21_views_witness :
  views_replaceable
    (pg_views (mk_catalog [] [] [("maas_support__node_overview",
                                  maas_support__node_overview);
                                 ("site_report", maasserver_discovery)]))
  = true
  /\ exists cat_r : pg_catalog,
       register_all_views
         (mk_catalog [] [] [("maas_support__node_overview",
                             maas_support__node_overview);
                            ("site_report", maasserver_discovery)])
       = Ok cat_r
       /\ forall w, ~ In (fst w) (map fst _ALL_VIEWS) ->
                    (In w (pg_views cat_r)
                     <-> In w [("maas_support__node_overview",
                                maas_support__node_overview);
                               ("site_report", maasserver_discovery)]).
Proof.
  split; [reflexivity |].
  exact (proj2 (X21_views_of_other_names_are_kept
                  (mk_catalog [] [] [("maas_support__node_overview",
                                      maas_support__node_overview);
                                     ("site_report", maasserver_discovery)]))
               eq_refl).
Defined.

Lemma mem_string_same_view (w : string * view_query)
  (l : list (string * view_query)) :
  mem_string (fst w) (map fst l) = existsb (fun x => same_view x w) l.
Proof.
  unfold mem_string. induction l as [|a l IH]; simpl; [reflexivity |].
  now rewrite IH.
Qed.

Lemma starts_with_refl (l : list string) : starts_with l l = true.
Proof.
  induction l as [|a l IH]; simpl; [reflexivity |].
  now rewrite String.eqb_refl.
Qed.

(** After the teardown no view of the catalogue goes by a name of
    [_ALL_VIEWS]. *)
Lemma dropped_views_replaceable (views : list (string * view_query)) :
  views_replaceable
    (filter (fun v => negb (mem_string (fst v) (map fst _ALL_VIEWS))) views)
  = true.
Proof.
  unfold views_replaceable. apply forallb_forall. intros [n q] Hin.
  unfold find_view. rewrite find_filter_none; [reflexivity |].
  intros w Hw. apply String.eqb_eq in Hw. apply negb_false_iff.
  apply mem_string_In. rewrite Hw. now apply (in_map fst) in Hin.
Qed.

(** After the registration the views of [_ALL_VIEWS] are those of the
    dictionary, and can be registered again. *)
Lemma installed_views_replaceable (views : list (string * view_query)) :
  views_replaceable (install same_view _ALL_VIEWS views) = true.
Proof.
  rewrite (install_spec same_view same_view_sym _ all_views_distinct).
  unfold views_replaceable. apply forallb_forall. intros [n q] Hin.
  unfold find_view. rewrite find_app, find_filter_none.
  - rewrite (find_view_in _ _ Hin). apply starts_with_refl.
  - intros w Hw. apply String.eqb_eq in Hw. apply negb_false_iff.
    apply existsb_exists. exists (n, q). split; [exact Hin |].
    unfold same_view. cbn [fst]. rewrite Hw. apply String.eqb_refl.
Qed.

Lemma install_after_drop (views : list (string * view_query)) :
  install same_view _ALL_VIEWS
    (filter (fun v => negb (mem_string (fst v) (map fst _ALL_VIEWS))) views)
  = install same_view _ALL_VIEWS views.
Proof.
  rewrite !(install_spec same_view same_view_sym _ all_views_distinct).
  f_equal. rewrite filter_twice. apply filter_ext. intros w.
  rewrite mem_string_same_view.
  now destruct (existsb (fun x => same_view x w) _ALL_VIEWS).
Qed.

(** X22: the teardown makes the registration possible on every catalogue.
    [drop_all_views] followed by [register_all_views] succeeds whatever
    views the catalogue holds.  Without the teardown the registration fails
    when a view of one of its names has other columns; when no view stands
    in the way it succeeds, leaves the catalogue that the teardown and
    registration leave, and is idempotent. *)
Theorem X22_register_all_views_restores :
  forall cat : pg_catalog,
  exists cat1 : pg_catalog,
    run [drop_all_views; register_all_views] cat = Ok cat1
    /\ (views_replaceable (pg_views cat) = false ->
        exists msg, register_all_views cat = SqlError msg)
    /\ (views_replaceable (pg_views cat) = true ->
        register_all_views cat = Ok cat1
        /\ run [register_all_views; register_all_views] cat = Ok cat1
        /\ run [register_all_views; drop_all_views; register_all_views] cat
           = Ok cat1).
Proof.
  intros cat.
  exists (mk_catalog (pg_proc cat) (pg_trigger cat)
            (install same_view _ALL_VIEWS (pg_views cat))).
  split; [| split].
  - cbn [run]. rewrite drop_all_views_spec. cbn [bind].
    rewrite register_all_views_spec
      by (cbn [pg_views]; apply dropped_views_replaceable).
    cbn [bind pg_proc pg_trigger pg_views].
    now rewrite install_after_drop.
  - intros Hbad. destruct cat as [P T V].
    exact (run_register_views_fails _ALL_VIEWS P T all_views_distinct
             all_views_identifiers V Hbad).
  - intros Hcat. rewrite (register_all_views_spec cat Hcat).
    split; [reflexivity |]. cbn [run].
    rewrite (register_all_views_spec cat Hcat). cbn [bind]. split.
    + rewrite register_all_views_spec
        by (cbn [pg_views]; apply installed_views_replaceable).
      cbn [bind pg_proc pg_trigger pg_views].
      now rewrite (install_idempotent same_view same_view_refl same_view_sym
                     _ _ all_views_distinct).
    + rewrite drop_all_views_spec. cbn [bind].
      rewrite register_all_views_spec
        by (cbn [pg_views]; apply dropped_views_replaceable).
      cbn [bind pg_proc pg_trigger pg_views].
      rewrite install_after_drop.
      now rewrite (install_idempotent same_view same_view_refl same_view_sym
                     _ _ all_views_distinct).
Qed.

Lemma X22_register_all_views_witness :
  views_replaceable
    [("maas_support__node_overview", maasserver_discovery)] = false
  /\ exists cat1 msg,
       run [drop_all_views; register_all_views]
           (mk_catalog [] []
              [("maas_support__node_overview", maasserver_discovery)])
       = Ok cat1
       /\ register_all_views
            (mk_catalog [] []
               [("maas_support__node_overview", maasserver_discovery)])
          = SqlError msg.
Proof.
  split; [reflexivity |].
  destruct (X22_register_all_views_restores
              (mk_catalog [] []
                 [("maas_support__node_overview", maasserver_discovery)]))
    as (cat1 & Hteardown & Hfails & _).
  destruct (Hfails eq_refl) as [msg Hmsg].
  exists cat1, msg. split; [exact Hteardown | exact Hmsg].
Defined.


(** ** Tag updates with any number of links *)

Lemma for_loop_over_links (db : database) (links : list row) :
  NoDup (node_ids db) ->
  (forall l, In l links ->
     exists n a b,
       col l "node_id" = VInt a
       /\ In n (rows_of db "maasserver_node")
       /\ col n "id" = VInt a
       /\ col n "installable" = VBool b) ->
  exists ns,
    for_loop
      (flat_map (fun l =>
         flat_map (fun n => where_ (sql_eq (col l "node_id") (col n "id")) n)
                  (rows_of db "maasserver_node"))
       links)
      (fun node => notify_node_or_device (Some node))
    = Ok ns
    /\ Forall2
         (fun l x =>
            exists n b,
              In n (rows_of db "maasserver_node")
              /\ col n "id" = col l "node_id"
              /\ col n "installable" = VBool b
              /\ x = (if b then "node_update" else "device_update",
                      payload_of n))
         links ns.
Proof.
  intros Hpk. induction links as [|l links IH]; intros H.
  - exists []. split; [reflexivity | constructor].
  - destruct (H l (or_introl eq_refl)) as (n & a & b & Hl & Hn & Ha & Hb).
    destruct IH as (ns & Hns & Hall).
    { intros l' Hl'. apply H. now right. }
    cbn [flat_map]. rewrite (nodes_of_link db l n a Hpk Hl Hn Ha).
    cbn [app for_loop]. rewrite (notify_node_or_device_some _ _ Hb), Hns.
    eexists. split; [reflexivity |]. constructor; [| exact Hall].
    exists n, b. repeat split; auto. congruence.
Qed.

(** A loop over the same rows in another order sends the same
    notifications in another order. *)
Lemma for_loop_Permutation (body : row -> result (list notification))
  (rows rows' : list row) :
  Permutation rows rows' ->
  forall ms, for_loop rows' body = Ok ms ->
  exists ns, for_loop rows body = Ok ns /\ Permutation ns ms.
Proof.
  induction 1 as [| r l l' Hperm IH | r r' l | l l' l'' _ IH1 _ IH2];
    intros ms H.
  - exists ms. split; [exact H | apply Permutation_refl].
  - cbn [for_loop] in *.
    apply and_then_ok in H as (a & m & Ha & Hm & ->).
    destruct (IH _ Hm) as (n & Hn & Hp).
    exists (a ++ n)%list. rewrite Ha, Hn. split; [reflexivity |].
    now apply Permutation_app_head.
  - cbn [for_loop] in *.
    apply and_then_ok in H as (a & m & Ha & Hm & ->).
    apply and_then_ok in Hm as (b & m' & Hb & Hm' & ->).
    exists (b ++ a ++ m')%list. rewrite Ha, Hb, Hm'.
    split; [reflexivity |].
    rewrite !app_assoc. apply Permutation_app_tail.
    apply Permutation_app_comm.
  - destruct (IH2 _ H) as (n' & Hn' & Hp').
    destruct (IH1 _ Hn') as (n & Hn & Hp).
    exists n. split; [exact Hn |]. now transitivity n'.
Qed.

(** X24: an update of a Tag row fans out to the links of the tag.  When
    every link of the tag refers to a node of the Node table, the update
    sends one notification per link, each on the channel of its node's flag
    with the node's [system_id], in an order that the query leaves open;
    [tag_update] with the id of the tag follows them.  A tag without links
    sends [tag_update] alone. *)
Theorem X24_tag_update_notifies_each_link :
  forall (db : database) (old new : row) (t : Z),
    field "id" new = Some (VInt t) ->
    NoDup (node_ids db) ->
    (forall l, In l (tag_links db t) ->
       exists n a b,
         col l "node_id" = VInt a
         /\ In n (rows_of db "maasserver_node")
         /\ col n "id" = VInt a
         /\ col n "installable" = VBool b) ->
    exists ns per_link,
      on_update registered db "maasserver_tag" old new
      = Ok (ns ++ [("tag_update", text_of_int t)])%list
      /\ Permutation ns per_link
      /\ Forall2
           (fun l x =>
              exists n b,
                In n (rows_of db "maasserver_node")
                /\ col n "id" = col l "node_id"
                /\ col n "installable" = VBool b
                /\ x = (if b then "node_update" else "device_update",
                        payload_of n))
           (tag_links db t) per_link.
Proof.
  intros db old new t Ht Hpk Hlinks.
  destruct (for_loop_over_links db (tag_links db t) Hpk Hlinks)
    as (ms & Hms & Hall).
  rewrite <- tag_join_by_links in Hms.
  apply (for_loop_Permutation _ _ _
           (flat_map_swap
              (fun maasserver_node maasserver_node_tags =>
                 where_ (sql_and
                           (sql_eq (col maasserver_node_tags "tag_id")
                                   (VInt t))
                           (sql_eq (col maasserver_node_tags "node_id")
                                   (col maasserver_node "id")))
                        maasserver_node)
              (rows_of db "maasserver_node")
              (rows_of db "maasserver_node_tags")))
    in Hms as (ns & Hns & Hperm).
  exists ns, ms. split; [| split; [exact Hperm | exact Hall]].
  unfold on_update. rewrite fire_tag_update.
  unfold TAG_NODES_NOTIFY, render_notification_procedure. cbn [prosrc].
  eval_images. rewrite (image_field_some _ _ _ Ht). cbn [bind].
  rewrite Hns. reflexivity.
Qed.

Lemma X24_tag_update_witness :
  NoDup (node_ids sample_db)
  /\ tag_links sample_db 7
     = [ [("id", VInt 1); ("node_id", VInt 1); ("tag_id", VInt 7)];
         [("id", VInt 2); ("node_id", VInt 2); ("tag_id", VInt 7)] ]
  /\ exists ns per_link,
       on_update registered sample_db "maasserver_tag"
         [("id", VInt 7)] [("id", VInt 7)]
       = Ok (ns ++ [("tag_update", "7")])%list
       /\ Permutation ns per_link
       /\ Forall2
            (fun l x =>
               exists n b,
                 In n (rows_of sample_db "maasserver_node")
                 /\ col n "id" = col l "node_id"
                 /\ col n "installable" = VBool b
                 /\ x = (if b then "node_update" else "device_update",
                         payload_of n))
            (tag_links sample_db 7) per_link.
Proof.
  assert (Hpk : NoDup (node_ids sample_db)).
  { repeat constructor; simpl; intuition discriminate. }
  split; [exact Hpk | split; [reflexivity |]].
  refine (X24_tag_update_notifies_each_link
            sample_db [("id", VInt 7)] [("id", VInt 7)] 7
            eq_refl Hpk _).
  intros l Hl. cbn in Hl. destruct Hl as [<- | [<- | []]].
  - exists sample_node, 1%Z, true. cbn. auto.
  - exists sample_device, 2%Z, false. cbn. auto.
Defined.

(** ** No error on rows that have their columns *)

Lemma and_then_total (a b : result (list notification)) :
  (exists x, a = Ok x) -> (exists y, b = Ok y) ->
  exists ns, and_then a b = Ok ns.
Proof. intros [x ->] [y ->]. eexists. reflexivity. Qed.

Lemma notify_node_or_device_total (node : option row) :
  exists ns, notify_node_or_device node = Ok ns.
Proof.
  unfold notify_node_or_device, pg_notify.
  destruct (holds (as_cond (rfield node "installable"))); eexists; reflexivity.
Qed.

Lemma for_loop_total (rows : list row)
  (body : row -> result (list notification)) :
  (forall r, exists ns, body r = Ok ns) ->
  exists ns, for_loop rows body = Ok ns.
Proof.
  intros H. induction rows as [|r rows IH]; simpl.
  - eexists. reflexivity.
  - apply and_then_total; [apply H | exact IH].
Qed.

Lemma fire_all_total (cat : pg_catalog) (db : database) (tg : tg_data)
  (ts : list trigger) :
  (forall t, In t ts -> exists ns, fire_trigger cat db tg t = Ok ns) ->
  exists ns, fire_all cat db tg ts = Ok ns.
Proof.
  intros H. induction ts as [|t ts IH]; simpl.
  - eexists. reflexivity.
  - apply and_then_total; [apply H; now left |].
    apply IH. intros u Hu. apply H. now right.
Qed.

Lemma in_triggers_for_full (cat : pg_catalog) (tbl : string) (op : tg_op)
  (t : trigger) :
  In t (triggers_for cat tbl op) ->
  In t (pg_trigger cat) /\ tgrelid t = tbl /\ mem_op op (tgevent t) = true.
Proof.
  intros H. split; [| split].
  - now apply in_triggers_for in H.
  - now apply in_triggers_for in H.
  - now apply in_triggers_for_event in H.
Qed.

Lemma image_field_has (r : row) (c : string) :
  field c r <> None -> exists v, image_field (Some r) c = Ok v.
Proof.
  intros H. unfold image_field. destruct (field c r) as [v|]; [| congruence].
  now exists v.
Qed.

Ltac read_columns Hold Hnew :=
  repeat match goal with
  | |- context [image_field (Some ?r) ?c] =>
      first
        [ destruct (image_field_has r c (Hnew c ltac:(cbn; auto 10)))
            as [? ->]
        | destruct (image_field_has r c (Hold c ltac:(cbn; auto 10)))
            as [? ->] ];
      cbv beta iota
  | |- context [if holds ?c then _ else _] =>
      destruct (holds c); cbv beta iota
  end.

Ltac body_total :=
  lazymatch goal with
  | |- exists ns, and_then _ _ = Ok ns =>
      apply and_then_total; body_total
  | |- exists ns, pg_notify _ _ = Ok ns => eexists; reflexivity
  | |- exists ns, notify_node_or_device _ = Ok ns =>
      apply notify_node_or_device_total
  | |- exists ns, for_loop _ _ = Ok ns =>
      apply for_loop_total; intros; apply notify_node_or_device_total
  | |- exists ns, Ok _ = Ok ns => eexists; reflexivity
  end.

(** X25: a mutation of any table, tracked or not, raises no error when the
    old and the new row have the columns that the bindings of the table
    read, whatever the columns hold and whatever the lookups find: the only
    error a registered procedure can raise is a column that is missing. *)
Theorem X25_no_error_on_rows_with_their_columns :
  forall (db : database) (tbl : string) (op : tg_op) (old new : row),
    has_columns (columns_read tbl) old ->
    has_columns (columns_read tbl) new ->
    exists ns, fire registered db tbl op (images op old new) = Ok ns.
Proof.
  intros db tbl op old new Hold Hnew. unfold fire.
  apply fire_all_total. intros t Ht.
  apply in_triggers_for_full in Ht as (Ht & Htbl & Hev).
  let l := eval vm_compute in (pg_trigger registered) in
  replace (pg_trigger registered) with l in Ht by (vm_compute; reflexivity).
  cbn [In] in Ht. unfold has_columns in Hold, Hnew.
  repeat (destruct Ht as [<- | Ht]);
    [ cbn [tgrelid] in Htbl; subst tbl;
      match type of Hnew with
      | context [columns_read ?tb] =>
          let cs := eval vm_compute in (columns_read tb) in
          change (columns_read tb) with cs in Hold, Hnew
      end;
      destruct op; try discriminate Hev; cbn [images];
      lazy -[eval_expr image_field select_node_by_id notify_node_or_device
             pg_notify select_into flat_map rows_of for_loop and_then rfield
             col field cast_text holds sql_eq sql_neq sql_and sql_or as_cond
             where_ sql_eq_literal text_or_empty text_of_int row table
             database notification tv];
      repeat first [rewrite eval_expr_NEW | rewrite eval_expr_OLD];
      cbn [NEW OLD];
      read_columns Hold Hnew; body_total .. | contradiction Ht ].
Qed.

Lemma X25_no_error_witness :
  has_columns (columns_read "maasserver_macaddress")
              [("id", VInt 9); ("node_id", VNull)]
  /\ exists ns,
       fire registered sample_db "maasserver_macaddress" UPDATE
         (images UPDATE [("id", VInt 9); ("node_id", VNull)]
                        [("id", VInt 9); ("node_id", VInt 44)])
       = Ok ns.
Proof.
  assert (Hold : has_columns (columns_read "maasserver_macaddress")
                             [("id", VInt 9); ("node_id", VNull)]).
  { intros c [<- | []]. discriminate. }
  assert (Hnew : has_columns (columns_read "maasserver_macaddress")
                             [("id", VInt 9); ("node_id", VInt 44)]).
  { intros c [<- | []]. discriminate. }
  split; [exact Hold |].
  exact (X25_no_error_on_rows_with_their_columns
           sample_db "maasserver_macaddress" UPDATE _ _ Hold Hnew).
Defined.

(** ** MAC addresses that are attached or detached *)

(** X26: an update that sets or clears the [node_id] of a MAC address
    notifies no old owner.  The test [OLD.node_id != NEW.node_id] is unknown
    when one side is NULL, so the update sends what the insert of the new
    row sends: the notification of the node that the address is attached to;
    for a detached address, whose new [node_id] is NULL, that is
    [device_update] with an empty payload. *)
Theorem X26_macaddress_attach_detach_skips_old_owner :
  forall (db : database) (old new : row) (v_old v_new : value),
    field "node_id" old = Some v_old ->
    field "node_id" new = Some v_new ->
    v_old = VNull \/ v_new = VNull ->
    on_update registered db "maasserver_macaddress" old new
    = on_insert registered db "maasserver_macaddress" new
    /\ (v_new = VNull ->
        on_update registered db "maasserver_macaddress" old new
        = Ok [("device_update", "")]).
Proof.
  intros db old new v_old v_new Hold Hnew Hnull.
  assert (Hskip : holds (sql_neq v_old v_new) = false).
  { destruct Hnull as [-> | ->]; [reflexivity |]. now destruct v_old. }
  assert (Hup : on_update registered db "maasserver_macaddress" old new
                = on_insert registered db "maasserver_macaddress" new).
  { run_registered. eval_images.
    rewrite (image_field_some _ _ _ Hold), (image_field_some _ _ _ Hnew).
    cbn [bind]. rewrite Hskip.
    symmetry. run_registered. eval_images.
    rewrite (image_field_some _ _ _ Hnew). cbn [bind].
    unfold and_then, bind.
    now destruct (notify_node_or_device (select_node_by_id db v_new)). }
  split; [exact Hup |].
  intros ->. rewrite Hup. run_registered. eval_images.
  rewrite (image_field_some _ _ _ Hnew). cbn [bind].
  rewrite select_node_by_id_none; [reflexivity |].
  intros n _. now destruct (col n "id").
Qed.

Lemma X26_macaddress_witness :
  field "node_id" [("id", VInt 9); ("node_id", VNull)] = Some VNull
  /\ on_update registered sample_db "maasserver_macaddress"
       [("id", VInt 9); ("node_id", VNull)]
       [("id", VInt 9); ("node_id", VInt 1)]
     = on_insert registered sample_db "maasserver_macaddress"
         [("id", VInt 9); ("node_id", VInt 1)]
  /\ on_insert registered sample_db "maasserver_macaddress"
       [("id", VInt 9); ("node_id", VInt 1)]
     = Ok [("node_update", "node-1")].
Proof.
  split; [reflexivity |]. split; [| vm_compute; reflexivity].
  exact (proj1 (X26_macaddress_attach_detach_skips_old_owner
                  sample_db [("id", VInt 9); ("node_id", VNull)]
                  [("id", VInt 9); ("node_id", VInt 1)] VNull (VInt 1)
                  eq_refl eq_refl (or_introl eq_refl))).
Defined.
